(** * imageresize: a shallow embedding of the batch image processor

    The development follows the two modules of the program:
    [config.py] (class [Config]) and [image_service.py] (class
    [ImageProcessor]).  The operating system and the imaging library
    (Pillow) are collaborators of the program, not part of it: they are
    an interface ([Platform]) the program is parametrised by.  What the
    program itself computes (extension check, validation order, message
    formatting, border geometry, cache key, counters) is defined here
    function by function, with the names of the source. *)

From Stdlib Require Import ZArith QArith Qround List Bool Lia.
From Stdlib Require Import Ascii String DecimalString.
Import ListNotations.

Local Open Scope string_scope.
Local Open Scope Z_scope.

(** ** Python strings

    A [str] is modelled by [string]; the characters the program inspects
    are ASCII (the three extensions).  No character outside ASCII
    lower-cases to one of the letters of [.jpg], [.jpeg] or [.png], so
    an ASCII [lower] decides the suffix test the way [str.lower] does. *)
Module Py.

Definition is_upper (c : ascii) : bool :=
  let n := nat_of_ascii c in (Nat.leb 65 n && Nat.leb n 90)%bool.

Definition lower_char (c : ascii) : ascii :=
  if is_upper c then ascii_of_nat (nat_of_ascii c + 32) else c.

(** [str.lower()] *)
Fixpoint lower (s : string) : string :=
  match s with
  | EmptyString => EmptyString
  | String c s' => String (lower_char c) (lower s')
  end.

(** [str.endswith(suffix)]: the last [len(suffix)] characters are
    compared with the suffix. *)
Definition endswith (s suffix : string) : bool :=
  let n := String.length s in
  let m := String.length suffix in
  (Nat.leb m n && String.eqb (substring (n - m) m s) suffix)%bool.

(** [any(...)] over a generator of booleans *)
Definition any {A} (f : A -> bool) (l : list A) : bool := existsb f l.

(** [sep.join(items)] *)
Fixpoint join (sep : string) (items : list string) : string :=
  match items with
  | [] => ""
  | [x] => x
  | x :: rest => x ++ sep ++ join sep rest
  end.

(** [str(n)] for an [int] *)
Definition str_int (n : Z) : string := NilZero.string_of_int (Z.to_int n).

(** [int(x)] for a [float]: truncation toward zero.  A [float] is
    modelled by the rational it denotes. *)
Definition int_of_float (x : Q) : Z := Z.quot (Qnum x) (Zpos (Qden x)).

(** [a / b] on two [int]s (true division); [None] is ZeroDivisionError.
    Python rounds the exact quotient to the nearest binary64; the
    quotients the program forms (a pixel count over a width, a byte
    count over 2^20) are far below 2^53, where truncation and the
    one-decimal format of the rounded and of the exact quotient agree. *)
Definition truediv (a b : Z) : option Q :=
  if b =? 0 then None else Some (inject_Z a / inject_Z b)%Q.

(** Nearest integer, ties to even: the rounding of float formatting. *)
Definition round_half_even (x : Q) : Z :=
  let n := Qnum x in
  let d := Zpos (Qden x) in
  let f := n / d in
  let r2 := 2 * (n mod d) in
  if r2 <? d then f
  else if d <? r2 then f + 1
  else if Z.even f then f else f + 1.

(** [f"{x:.1f}"] *)
Definition format_1f (x : Q) : string :=
  let t := round_half_even (x * 10)%Q in
  let a := Z.abs t in
  let sign := if Qnum x <? 0 then "-" else "" in
  sign ++ str_int (a / 10) ++ "." ++ str_int (a mod 10).

End Py.

(** ** config.py *)

Record Config := mkConfig {
  min_width : Z;
  quality : Z;
  supported_formats : list string;
  input_dir : string;
  output_dir : string;
  max_file_size_mb : Z;
  enable_caching : bool;
  cache_dir : string;
  retry_attempts : Z;
  retry_delay : Z
}.

(** [Config.is_valid_image_format] *)
Definition is_valid_image_format (self : Config) (filename : string) : bool :=
  Py.any (fun ext => Py.endswith (Py.lower filename) ext)
         (supported_formats self).

(** [Config.get_supported_extensions] *)
Definition get_supported_extensions (self : Config) : list string :=
  supported_formats self.

(** [Config.__init__].  The values read from the environment
    ([MIN_WIDTH], [QUALITY], [MAX_FILE_SIZE_MB], [ENABLE_CACHING],
    [CACHE_DIR], [RETRY_ATTEMPTS], [RETRY_DELAY]) are taken already
    parsed; the extension list and the input directory are the literals
    of the source.  [join] is [os.path.join]. *)
Definition Config_init (join : string -> string -> string)
    (env_min_width env_quality env_max_file_size_mb : Z)
    (env_enable_caching : bool) (env_cache_dir : string)
    (env_retry_attempts env_retry_delay : Z) : Config :=
  let input := "C:\Users\Victor Akello\Desktop\Jiji Items\Services 70\web design 15" in
  {| min_width := env_min_width;
     quality := env_quality;
     supported_formats := [".jpg"; ".jpeg"; ".png"];
     input_dir := input;
     output_dir := join input "ready-images";
     max_file_size_mb := env_max_file_size_mb;
     enable_caching := env_enable_caching;
     cache_dir := env_cache_dir;
     retry_attempts := env_retry_attempts;
     retry_delay := env_retry_delay |}.

(** ** Exceptions, images and the platform interface *)

(** A raised [Exception] is represented by its text, [str(e)]. *)
Definition exn := string.

Inductive result (A : Type) : Type :=
| Ok (a : A)
| Raise (e : exn).
Arguments Ok {A} a.
Arguments Raise {A} e.

(** A Pillow image: [img.mode], [img.size] and the raster, read with
    [img.getpixel((x, y))] (a tuple of band values). *)
Record Image := mkImage {
  mode : string;
  size : Z * Z;
  getpixel : Z -> Z -> list Z
}.

(** [os.stat_result], the two fields the program reads. *)
Record stat_result := mkStat {
  st_mtime : Q;
  st_size : Z
}.

(** What the program asks of the operating system, of the Python
    runtime and of Pillow, over a world [W] (file system and clock). *)
Class Platform (W : Type) := {
  (* os, os.path *)
  plat_stat : W -> string -> result stat_result;
  plat_makedirs : W -> string -> result unit * W;
  plat_walk : W -> string -> list (string * list string * list string);
  os_path_join : string -> string -> string;
  os_path_basename : string -> string;
  os_path_splitext : string -> string * string;
  (* builtins, time, hashlib *)
  plat_open_w : W -> string -> result unit * W;
  plat_write : W -> string -> string -> result unit * W;
  plat_time : W -> Q * W;
  str_float : Q -> string;
  md5_hexdigest : string -> string;
  (* PIL *)
  pil_open : W -> string -> result Image;
  pil_verify : W -> string -> Image -> result unit;
  pil_convert : Image -> string -> result Image;
  pil_split : Image -> result (list Image);
  pil_paste_mask : Image -> Image -> Z * Z -> Image -> result Image;
  pil_exif_transpose : Image -> result Image;
  pil_resize_lanczos : Image -> Z * Z -> result Image;
  pil_save_jpeg : W -> Image -> string -> Z -> result unit * W
}.

(** ** Effects

    The program runs against an environment: the world, the records
    handed to [logger], and the sequence of file-system accesses made
    so far.  A computation maps a state to a result (a value or a
    raised exception) and the state reached. *)

Inductive level := INFO | WARNING | ERROR.

Inductive event :=
| EvStat (path : string)
| EvMakedirs (path : string)
| EvWalk (path : string)
| EvOpenWrite (path : string)
| EvWrite (path : string)
| EvTime
| EvImageOpen (path : string)
| EvImageVerify (path : string)
| EvImageSave (path : string).

Record Env (W : Type) := mkEnv {
  world : W;
  log : list (level * string);
  trace : list event
}.
Arguments mkEnv {W}.
Arguments world {W}.
Arguments log {W}.
Arguments trace {W}.

Definition M (S A : Type) : Type := S -> result A * S.

Definition ret {S A} (a : A) : M S A := fun s => (Ok a, s).

Definition raise {S A} (e : exn) : M S A := fun s => (Raise e, s).

Definition bind {S A B} (m : M S A) (k : A -> M S B) : M S B :=
  fun s =>
    match m s with
    | (Ok a, s') => k a s'
    | (Raise e, s') => (Raise e, s')
    end.

(** [try: m  except Exception as e: h e] *)
Definition try_except {S A} (m : M S A) (h : exn -> M S A) : M S A :=
  fun s =>
    match m s with
    | (Ok a, s') => (Ok a, s')
    | (Raise e, s') => h e s'
    end.

Definition of_result {S A} (r : result A) : M S A := fun s => (r, s).

Declare Scope monad_scope.
Delimit Scope monad_scope with monad.
Notation "x <- m ;; k" := (bind m (fun x => k))
  (at level 61, m at next level, right associativity) : monad_scope.
Notation "' pat <- m ;; k" := (bind m (fun x => match x with pat => k end))
  (at level 61, pat pattern, m at next level, right associativity) : monad_scope.
Notation "m ;;; k" := (bind m (fun _ => k))
  (at level 61, right associativity) : monad_scope.
Local Open Scope monad_scope.

(** [for x in l: body x] *)
Fixpoint for_each {S A B} (body : A -> M S B) (l : list A) : M S unit :=
  match l with
  | [] => ret tt
  | x :: rest => body x ;;; for_each body rest
  end.

(** ** The library calls, as computations over the environment *)
Section Calls.
Context {W : Type} {P : Platform W}.

Definition IO (A : Type) : Type := M (Env W) A.

Definition emit (ev : event) (e : Env W) : Env W :=
  mkEnv (world e) (log e) (trace e ++ [ev])%list.

Definition set_world (w : W) (e : Env W) : Env W :=
  mkEnv w (log e) (trace e).

Definition logger (lv : level) (msg : string) : IO unit :=
  fun e => (Ok tt, mkEnv (world e) (log e ++ [(lv, msg)])%list (trace e)).

Definition logger_info := logger INFO.
Definition logger_warning := logger WARNING.
Definition logger_error := logger ERROR.

(** [os.stat(path)] *)
Definition os_stat (path : string) : IO stat_result :=
  fun e => (plat_stat (world e) path, emit (EvStat path) e).

(** [os.path.exists(path)]: [os.stat] succeeded. *)
Definition os_path_exists (path : string) : IO bool :=
  try_except (_ <- os_stat path ;; ret true) (fun _ => ret false).

(** [os.path.getsize(path)]: [os.stat(path).st_size]. *)
Definition os_path_getsize (path : string) : IO Z :=
  st <- os_stat path ;; ret (st_size st).

(** [os.makedirs(path, exist_ok=True)] *)
Definition os_makedirs (path : string) : IO unit :=
  fun e => let (r, w) := plat_makedirs (world e) path in
           (r, set_world w (emit (EvMakedirs path) e)).

(** [os.walk(path)], consumed to the end. *)
Definition os_walk (path : string)
  : IO (list (string * list string * list string)) :=
  fun e => (Ok (plat_walk (world e) path), emit (EvWalk path) e).

(** [open(path, 'w')] *)
Definition open_w (path : string) : IO unit :=
  fun e => let (r, w) := plat_open_w (world e) path in
           (r, set_world w (emit (EvOpenWrite path) e)).

(** [f.write(text)] on the file opened at [path] *)
Definition file_write (path text : string) : IO unit :=
  fun e => let (r, w) := plat_write (world e) path text in
           (r, set_world w (emit (EvWrite path) e)).

(** [time.time()] *)
Definition time_time : IO Q :=
  fun e => let (t, w) := plat_time (world e) in
           (Ok t, set_world w (emit EvTime e)).

(** [Image.open(path)] *)
Definition Image_open (path : string) : IO Image :=
  fun e => (pil_open (world e) path, emit (EvImageOpen path) e).

(** [img.verify()] for an image opened from [path] *)
Definition Image_verify (path : string) (img : Image) : IO unit :=
  fun e => (pil_verify (world e) path img, emit (EvImageVerify path) e).

(** [img.save(path, 'JPEG', quality=q, optimize=True)] *)
Definition Image_save (img : Image) (path : string) (q : Z) : IO unit :=
  fun e => let (r, w) := pil_save_jpeg (world e) img path q in
           (r, set_world w (emit (EvImageSave path) e)).

(** [Image.new(mode, size, color)] *)
Definition Image_new (md : string) (sz : Z * Z) (color : list Z)
  : result Image :=
  let '(w, h) := sz in
  if ((w <? 0) || (h <? 0))%bool
  then Raise "Width and height must be >= 0"
  else Ok (mkImage md sz (fun _ _ => color)).

(** [dst.paste(src, (x0, y0))] without a mask: the source, converted to
    the mode of the destination when the modes differ, replaces the
    pixels of the box [(x0, y0, x0 + src.width, y0 + src.height)]. *)
Definition Image_paste (dst src : Image) (box : Z * Z) : result Image :=
  let '(x0, y0) := box in
  match (if String.eqb (mode src) (mode dst) then Ok src
         else pil_convert src (mode dst)) with
  | Raise e => Raise e
  | Ok src' =>
      let '(sw, sh) := size src' in
      Ok (mkImage (mode dst) (size dst)
            (fun x y =>
               if ((x0 <=? x) && (x <? x0 + sw) &&
                   (y0 <=? y) && (y <? y0 + sh))%bool
               then getpixel src' (x - x0) (y - y0)
               else getpixel dst x y))
  end.

(** [dst.paste(src, mask=mask)]: box [(0, 0)]; a masked paste is
    Pillow's blend. *)
Definition Image_paste_opt (dst src : Image) (mask : option Image)
  : result Image :=
  match mask with
  | None => Image_paste dst src (0, 0)
  | Some m => pil_paste_mask dst src (0, 0) m
  end.

End Calls.
Arguments IO : clear implicits.

(** ** image_service.py *)

Record ImageProcessor := mkImageProcessor {
  config : Config;
  processed_count : Z;
  skipped_count : Z;
  error_count : Z
}.

(** [ImageProcessor.__init__] *)
Definition ImageProcessor_init (cfg : Config) : ImageProcessor :=
  mkImageProcessor cfg 0 0 0.

(** The dictionary [process_directory] returns, by its four keys. *)
Record Stats := mkStats {
  processed : Z;
  skipped : Z;
  errors : Z;
  total : Z
}.

(** The processor object together with the environment it runs in. *)
Record State (W : Type) := mkState {
  self_ : ImageProcessor;
  env : Env W
}.
Arguments mkState {W}.
Arguments self_ {W}.
Arguments env {W}.

Section Service.
Context {W : Type} {P : Platform W}.

(** Run an environment computation, the processor untouched. *)
Definition io {A} (m : IO W A) : M (State W) A :=
  fun s => let (r, e) := m (env s) in (r, mkState (self_ s) e).

Definition get_self : M (State W) ImageProcessor :=
  fun s => (Ok (self_ s), s).

Definition set_self (p : ImageProcessor) : M (State W) unit :=
  fun s => (Ok tt, mkState p (env s)).

(** [self.processed_count = f(self.processed_count)], and the like *)
Definition upd_processed_count (f : Z -> Z) : M (State W) unit :=
  p <- get_self ;;
  set_self (mkImageProcessor (config p) (f (processed_count p))
              (skipped_count p) (error_count p)).

Definition upd_skipped_count (f : Z -> Z) : M (State W) unit :=
  p <- get_self ;;
  set_self (mkImageProcessor (config p) (processed_count p)
              (f (skipped_count p)) (error_count p)).

Definition upd_error_count (f : Z -> Z) : M (State W) unit :=
  p <- get_self ;;
  set_self (mkImageProcessor (config p) (processed_count p)
              (skipped_count p) (f (error_count p))).

(** [ImageProcessor.validate_image] *)
Definition validate_image (self : ImageProcessor) (image_path : string)
  : IO W (bool * string * bool) :=
  let cfg := config self in
  try_except
    (if negb (is_valid_image_format cfg image_path) then
       ret (false,
            "Invalid image extension. Supported formats are " ++
              Py.join ", " (supported_formats cfg),
            false)
     else
       ex <- os_path_exists image_path ;;
       if negb ex then ret (false, "File does not exist", false)
       else
         sz <- os_path_getsize image_path ;;
         match Py.truediv sz (1024 * 1024) with
         | None => raise "division by zero"
         | Some file_size_mb =>
             if negb (Qle_bool file_size_mb (inject_Z (max_file_size_mb cfg)))
             then
               ret (false,
                    "File too large (" ++ Py.format_1f file_size_mb ++
                      "MB). Maximum allowed: " ++
                      Py.str_int (max_file_size_mb cfg) ++ "MB",
                    false)
             else
               img <- Image_open image_path ;;
               let '(width, height) := size img in
               Image_verify image_path img ;;;
               let needs_borders := width <? min_width cfg in
               (if needs_borders then
                  logger_info
                    ("Image " ++ os_path_basename image_path ++ " is " ++
                     Py.str_int width ++
                     "px wide, will add dark borders to meet " ++
                     Py.str_int (min_width cfg) ++ "px requirement")
                else ret tt) ;;;
               ret (true, "", needs_borders)
         end)
    (fun e => ret (false, "Error validating image: " ++ e, false)).

(** [ImageProcessor._add_dark_borders] *)
Definition _add_dark_borders (self : ImageProcessor) (img : Image)
  : result Image :=
  let '(width, height) := size img in
  if min_width (config self) <=? width then Ok img
  else
    let new_width := min_width (config self) in
    match Py.truediv (new_width * height) width with
    | None => Raise "division by zero"
    | Some quotient =>
        let new_height := Py.int_of_float quotient in
        match pil_resize_lanczos img (new_width, new_height) with
        | Raise e => Raise e
        | Ok resized_img =>
            match Image_new "RGB" (new_width, new_height) [0; 0; 0] with
            | Raise e => Raise e
            | Ok dark_background =>
                let x_offset := 0 in
                let y_offset := 0 in
                Image_paste dark_background resized_img (x_offset, y_offset)
            end
        end
    end.

(** The colour normalisation at the head of [process_image]. *)
Definition to_rgb (img : Image) : IO W Image :=
  if existsb (String.eqb (mode img)) ["RGBA"; "LA"; "P"] then
    background <- of_result (Image_new "RGB" (size img) [255; 255; 255]) ;;
    img1 <- (if String.eqb (mode img) "P"
             then of_result (pil_convert img "RGBA") else ret img) ;;
    mask <- (if String.eqb (mode img1) "RGBA" then
               bands <- of_result (pil_split img1) ;;
               match rev bands with
               | [] => raise "list index out of range"
               | b :: _ => ret (Some b)
               end
             else ret None) ;;
    of_result (Image_paste_opt background img1 mask)
  else if negb (String.eqb (mode img) "RGB") then
    of_result (pil_convert img "RGB")
  else ret img.

(** [ImageProcessor.process_image] *)
Definition process_image (self : ImageProcessor)
    (input_path output_path : string) (add_borders : bool) : IO W bool :=
  try_except
    (img <- Image_open input_path ;;
     img <- to_rgb img ;;
     img <- of_result (pil_exif_transpose img) ;;
     img <- (if add_borders then of_result (_add_dark_borders self img)
             else ret img) ;;
     Image_save img output_path (quality (config self)) ;;;
     ret true)
    (fun e =>
       logger_error ("Error processing image " ++ input_path ++ ": " ++ e) ;;;
       ret false).

(** [ImageProcessor.get_cache_key] *)
Definition get_cache_key (self : ImageProcessor) (file_path : string)
  : IO W string :=
  stat <- os_stat file_path ;;
  ret (md5_hexdigest
         (file_path ++ "_" ++ str_float (st_mtime stat) ++ "_" ++
          Py.str_int (st_size stat))).

(** [ImageProcessor.is_cached] *)
Definition is_cached (self : ImageProcessor) (file_path : string) : IO W bool :=
  if negb (enable_caching (config self)) then ret false
  else
    cache_key <- get_cache_key self file_path ;;
    let cache_file :=
      os_path_join (cache_dir (config self)) (cache_key ++ ".txt") in
    os_path_exists cache_file.

(** [ImageProcessor.mark_as_cached] *)
Definition mark_as_cached (self : ImageProcessor) (file_path : string)
  : IO W unit :=
  if negb (enable_caching (config self)) then ret tt
  else
    cache_key <- get_cache_key self file_path ;;
    let cache_file :=
      os_path_join (cache_dir (config self)) (cache_key ++ ".txt") in
    os_makedirs (cache_dir (config self)) ;;;
    open_w cache_file ;;;
    now <- time_time ;;
    file_write cache_file
      ("Processed: " ++ file_path ++ String "010" "Timestamp: " ++
       str_float now).

(** The output path [process_single_image] derives from the input
    path (the block headed "Generate output path"). *)
Definition derive_output_path (self : ImageProcessor) (input_path : string)
    (needs_borders : bool) : string :=
  let filename := os_path_basename input_path in
  let '(name, ext) := os_path_splitext filename in
  let suffix :=
    if needs_borders then "_processed_with_borders" else "_processed" in
  let output_filename := name ++ suffix ++ ".jpg" in
  os_path_join (output_dir (config self)) output_filename.

(** [ImageProcessor.process_single_image] *)
Definition process_single_image (input_path : string) : M (State W) bool :=
  self <- get_self ;;
  cached <- io (is_cached self input_path) ;;
  if cached then
    io (logger_info ("Skipping cached file: " ++ input_path)) ;;;
    upd_skipped_count (fun n => n + 1) ;;;
    ret true
  else
    '(is_valid, error_msg, needs_borders) <-
       io (validate_image self input_path) ;;
    if negb is_valid then
      io (logger_warning
            ("Invalid image " ++ input_path ++ ": " ++ error_msg)) ;;;
      upd_error_count (fun n => n + 1) ;;;
      ret false
    else
      let output_path := derive_output_path self input_path needs_borders in
      ok <- io (process_image self input_path output_path needs_borders) ;;
      if ok then
        io (mark_as_cached self input_path) ;;;
        upd_processed_count (fun n => n + 1) ;;;
        let border_info :=
          if needs_borders then " (with dark borders)" else "" in
        io (logger_info
              ("Successfully processed: " ++ input_path ++ " -> " ++
               output_path ++ border_info)) ;;;
        ret true
      else
        upd_error_count (fun n => n + 1) ;;;
        ret false.

(** The files [process_directory] collects from the triples of
    [os.walk]: every name that passes the extension check, joined to
    the directory it was listed in. *)
Definition collect_image_files (cfg : Config)
    (walked : list (string * list string * list string)) : list string :=
  flat_map
    (fun '(root, dirs, files) =>
       map (os_path_join root) (filter (is_valid_image_format cfg) files))
    walked.

(** [ImageProcessor.process_directory] *)
Definition process_directory (directory_path : string)
  : M (State W) Stats :=
  io (logger_info
        ("Starting batch processing of directory: " ++ directory_path)) ;;;
  upd_processed_count (fun _ => 0) ;;;
  upd_skipped_count (fun _ => 0) ;;;
  upd_error_count (fun _ => 0) ;;;
  self <- get_self ;;
  io (os_makedirs (output_dir (config self))) ;;;
  walked <- io (os_walk directory_path) ;;
  let image_files := collect_image_files (config self) walked in
  io (logger_info
        ("Found " ++ Py.str_int (Z.of_nat (List.length image_files)) ++
         " image files to process")) ;;;
  for_each process_single_image image_files ;;;
  self <- get_self ;;
  let stats :=
    mkStats (processed_count self) (skipped_count self) (error_count self)
            (Z.of_nat (List.length image_files)) in
  io (logger_info
        ("Processing complete. Processed: " ++ Py.str_int (processed stats) ++
         ", Skipped: " ++ Py.str_int (skipped stats) ++
         ", Errors: " ++ Py.str_int (errors stats))) ;;;
  ret stats.

End Service.

(** ** An in-memory platform

    A small file system with a clock, on which the program can be run:
    paths are keys of an association list, an image file carries its
    decoded raster and whether its data is intact, resizing is nearest
    neighbour.  The theorems below hold for every platform; this one
    serves to run the program on concrete inputs. *)
Module Sim.

Inductive node :=
| Dir
| File (mtime : Q) (sz : Z) (img : option Image) (intact : bool).

Record host := mkHost {
  files : list (string * node);
  clock : Q
}.

Fixpoint lookup (p : string) (l : list (string * node)) : option node :=
  match l with
  | [] => None
  | (k, v) :: rest => if String.eqb k p then Some v else lookup p rest
  end.

Fixpoint store (p : string) (v : node) (l : list (string * node))
  : list (string * node) :=
  match l with
  | [] => [(p, v)]
  | (k, v0) :: rest =>
      if String.eqb k p then (k, v) :: rest else (k, v0) :: store p v rest
  end.

(** Split at the last occurrence of a character. *)
Fixpoint rsplit (c : ascii) (s : string) : option (string * string) :=
  match s with
  | EmptyString => None
  | String a r =>
      match rsplit c r with
      | Some (h, t) => Some (String a h, t)
      | None => if Ascii.eqb a c then Some (EmptyString, r) else None
      end
  end.

Definition join (a b : string) : string :=
  match b with
  | String "/" _ => b
  | _ => if String.eqb a "" then b else a ++ "/" ++ b
  end.

Definition basename (p : string) : string :=
  match rsplit "/" p with
  | Some (_, t) => t
  | None => p
  end.

Definition splitext (f : string) : string * string :=
  match rsplit "." f with
  | Some (EmptyString, _) => (f, "")
  | Some (h, t) => (h, "." ++ t)
  | None => (f, "")
  end.

Definition stat (w : host) (p : string) : result stat_result :=
  match lookup p (files w) with
  | Some (File m sz _ _) => Ok (mkStat m sz)
  | Some Dir => Ok (mkStat 0 4096)
  | None => Raise ("[Errno 2] No such file or directory: '" ++ p ++ "'")
  end.

Definition makedirs (w : host) (p : string) : result unit * host :=
  match lookup p (files w) with
  | Some Dir => (Ok tt, w)
  | Some (File _ _ _ _) =>
      (Raise ("[Errno 17] File exists: '" ++ p ++ "'"), w)
  | None => (Ok tt, mkHost (store p Dir (files w)) (clock w))
  end.

(** One directory deep: the files listed directly under [root]. *)
Definition walk (w : host) (root : string)
  : list (string * list string * list string) :=
  [(root, [],
    flat_map
      (fun '(p, n) =>
         match n, rsplit "/" p with
         | File _ _ _ _, Some (d, name) =>
             if String.eqb d root then [name] else []
         | _, _ => []
         end)
      (files w))].

Definition open_w (w : host) (p : string) : result unit * host :=
  match lookup p (files w) with
  | Some Dir => (Raise ("[Errno 21] Is a directory: '" ++ p ++ "'"), w)
  | _ => (Ok tt, mkHost (store p (File (clock w) 0 None false) (files w))
                         (clock w))
  end.

Definition write (w : host) (p text : string) : result unit * host :=
  (Ok tt,
   mkHost (store p (File (clock w) (Z.of_nat (String.length text)) None false)
                  (files w))
           (clock w)).

Definition time (w : host) : Q * host :=
  (clock w, mkHost (files w) (clock w + 1)%Q).

(** A stand-in digest: a decimal checksum of the characters. *)
Fixpoint checksum (s : string) (acc : Z) : Z :=
  match s with
  | EmptyString => acc
  | String c r => checksum r ((acc * 31 + Z.of_nat (nat_of_ascii c)) mod 4294967296)
  end.

Definition digest (s : string) : string := Py.str_int (checksum s 7).

Definition image_open (w : host) (p : string) : result Image :=
  match lookup p (files w) with
  | Some (File _ _ (Some img) _) => Ok img
  | Some (File _ _ None _) => Raise ("cannot identify image file '" ++ p ++ "'")
  | Some Dir => Raise ("[Errno 21] Is a directory: '" ++ p ++ "'")
  | None => Raise ("[Errno 2] No such file or directory: '" ++ p ++ "'")
  end.

Definition verify (w : host) (p : string) (img : Image) : result unit :=
  match lookup p (files w) with
  | Some (File _ _ _ true) => Ok tt
  | _ => Raise "broken data stream when reading image file"
  end.

Definition convert (img : Image) (md : string) : result Image :=
  Ok (mkImage md (size img) (getpixel img)).

Definition resize (img : Image) (sz : Z * Z) : result Image :=
  let '(w, h) := sz in
  let '(sw, sh) := size img in
  if ((w <? 1) || (h <? 1))%bool
  then Raise "height and width must be > 0"
  else Ok (mkImage (mode img) (w, h)
             (fun x y => getpixel img (x * sw / w) (y * sh / h))).

(** A masked paste: the source shows where the mask is not zero. *)
Definition paste_mask (dst src : Image) (box : Z * Z) (mask : Image)
  : result Image :=
  let '(x0, y0) := box in
  let '(sw, sh) := size src in
  Ok (mkImage (mode dst) (size dst)
        (fun x y =>
           if ((x0 <=? x) && (x <? x0 + sw) && (y0 <=? y) && (y <? y0 + sh) &&
               negb (forallb (Z.eqb 0) (getpixel mask (x - x0) (y - y0))))%bool
           then getpixel src (x - x0) (y - y0)
           else getpixel dst x y)).

Definition save (w : host) (img : Image) (p : string) (q : Z)
  : result unit * host :=
  match lookup p (files w) with
  | Some Dir => (Raise ("[Errno 21] Is a directory: '" ++ p ++ "'"), w)
  | _ =>
      (Ok tt,
       mkHost (store p (File (clock w) (fst (size img) * snd (size img))
                              (Some img) true) (files w))
               (clock w))
  end.

#[global] Instance platform : Platform host := {|
  plat_stat := stat;
  plat_makedirs := makedirs;
  plat_walk := walk;
  os_path_join := join;
  os_path_basename := basename;
  os_path_splitext := splitext;
  plat_open_w := open_w;
  plat_write := write;
  plat_time := time;
  str_float := Py.format_1f;
  md5_hexdigest := digest;
  pil_open := image_open;
  pil_verify := verify;
  pil_convert := convert;
  pil_split := fun img => Ok [img];
  pil_paste_mask := paste_mask;
  pil_exif_transpose := fun img => Ok img;
  pil_resize_lanczos := resize;
  pil_save_jpeg := save
|}.

End Sim.

(** ** Notions used in the statements *)

(** The suffix test in the words of the specification: the string is
    some prefix followed by the suffix. *)
Definition ends_with (s suffix : string) : Prop :=
  exists prefix, s = prefix ++ suffix.

(** Arithmetic rounding to the nearest integer, as the specification
    words the new height. *)
Definition nearest_int (x : Q) : Z := Qfloor (x + (1 # 2))%Q.

(** What Pillow's [resize] guarantees for a positive target size: an
    image of exactly that size, in the mode of the source. *)
Definition resize_spec {W} (P : Platform W) : Prop :=
  forall img w h, 0 < w -> 0 < h ->
    exists r, pil_resize_lanczos img (w, h) = Ok r /\
              size r = (w, h) /\ mode r = mode img.

(** Every state a computation reaches is related to the one it started
    from. *)
Definition preserves {S A} (R : S -> S -> Prop) (m : M S A) : Prop :=
  forall s r s', m s = (r, s') -> R s s'.

Definition bump_skipped (p : ImageProcessor) : ImageProcessor :=
  mkImageProcessor (config p) (processed_count p) (skipped_count p + 1)
    (error_count p).

Definition bump_error (p : ImageProcessor) : ImageProcessor :=
  mkImageProcessor (config p) (processed_count p) (skipped_count p)
    (error_count p + 1).

Definition bump_processed (p : ImageProcessor) : ImageProcessor :=
  mkImageProcessor (config p) (processed_count p + 1) (skipped_count p)
    (error_count p).

(** Exactly one of the three counters went up, by exactly one. *)
Definition one_counter_incremented (a b : ImageProcessor) : Prop :=
  config b = config a /\
  ((processed_count b = processed_count a + 1 /\
    skipped_count b = skipped_count a /\ error_count b = error_count a) \/
   (processed_count b = processed_count a /\
    skipped_count b = skipped_count a + 1 /\ error_count b = error_count a) \/
   (processed_count b = processed_count a /\
    skipped_count b = skipped_count a /\ error_count b = error_count a + 1)).

Definition counted (p : ImageProcessor) : Z :=
  processed_count p + skipped_count p + error_count p.

Definition not_warning (x : level * string) : Prop := fst x <> WARNING.

Section Notions.
Context {W : Type} {P : Platform W}.

Definition add_log (lv : level) (msg : string) (e : Env W) : Env W :=
  mkEnv (world e) (log e ++ [(lv, msg)])%list (trace e).

(** Every record a step adds to the log satisfies [ok]. *)
Definition log_adds (ok : level * string -> Prop) (e e' : Env W) : Prop :=
  forall x, In x (log e') -> In x (log e) \/ ok x.

(** A path exists: [os.stat] succeeds on it. *)
Definition path_exists (w : W) (path : string) : bool :=
  match plat_stat w path with Ok _ => true | Raise _ => false end.

(** The digest of path, modification time and size. *)
Definition cache_key_of (file_path : string) (st : stat_result) : string :=
  md5_hexdigest
    (file_path ++ "_" ++ str_float (st_mtime st) ++ "_" ++
     Py.str_int (st_size st)).

(** The marker file of a cache key. *)
Definition marker_file (cfg : Config) (cache_key : string) : string :=
  os_path_join (cache_dir cfg) (cache_key ++ ".txt").

(** The file fails validation, or passes it and fails the transform. *)
Definition validation_or_transform_fails
    (self : ImageProcessor) (input_path : string) (e : Env W) : Prop :=
  match validate_image self input_path e with
  | (Ok (false, _, _), _) => True
  | (Ok (true, _, needs_borders), e') =>
      fst (process_image self input_path
             (derive_output_path self input_path needs_borders)
             needs_borders e') = Ok false
  | (Raise _, _) => False
  end.

End Notions.

(** ** Concrete inputs *)
Module Demo.

Definition cfg : Config := Config_init Sim.join 600 85 10 true "cache" 3 1.

Definition cfg_uncached : Config :=
  Config_init Sim.join 600 85 10 false "cache" 3 1.

Definition white (w h : Z) : Image :=
  mkImage "RGB" (w, h) (fun _ _ => [255; 255; 255]).

(** A directory with a narrow image, an image of exactly the minimum
    width, a file that does not decode, an oversized file and a text
    file. *)
Definition host : Sim.host :=
  Sim.mkHost
    [("in", Sim.Dir);
     ("in/narrow.jpg", Sim.File 5 1000 (Some (white 200 400)) true);
     ("in/exact.png", Sim.File 6 2000 (Some (white 600 300)) true);
     ("in/bad.png", Sim.File 7 1000 None false);
     ("in/huge.jpg", Sim.File 8 11010049 (Some (white 900 900)) true);
     ("in/notes.txt", Sim.File 9 12 None false)]
    100.

Definition start (c : Config) : State Sim.host :=
  mkState (ImageProcessor_init c) (mkEnv host [] []).

(** The state after [in/narrow.jpg] has been processed once. *)
Definition after_narrow : State Sim.host :=
  snd (process_single_image "in/narrow.jpg" (start cfg)).

End Demo.

(** ** config.py: directories *)

Section Directories.
Context {W : Type} {P : Platform W}.

(** [Config.create_directories] *)
Definition create_directories (self : Config) : IO W unit :=
  let directories := [input_dir self; output_dir self] in
  let directories :=
    if enable_caching self then (directories ++ [cache_dir self])%list
    else directories in
  for_each os_makedirs directories.

End Directories.

(** ** main.py *)

(** What [main] asks of the terminal and of [os.path] beyond the
    platform above: [input()] and [os.path.abspath]. *)
Class Terminal (W : Type) := {
  term_input : W -> result string * W;
  os_path_abspath : W -> string -> string
}.

(** The environment of the script: the environment of the processor
    and the lines handed to [print], one entry per call. *)
Record Console (W : Type) := mkConsole {
  cenv : Env W;
  stdout : list string
}.
Arguments mkConsole {W}.
Arguments cenv {W}.
Arguments stdout {W}.

(** [s * n] on a string *)
Fixpoint str_repeat (s : string) (n : nat) : string :=
  match n with
  | O => ""
  | S k => s ++ str_repeat s k
  end.

(** [f"{x:.2f}"] *)
Definition format_2f (x : Q) : string :=
  let t := Py.round_half_even (x * 100)%Q in
  let a := Z.abs t in
  let sign := if Qnum x <? 0 then "-" else "" in
  let cents := a mod 100 in
  sign ++ Py.str_int (a / 100) ++ "." ++
  (if cents <? 10 then "0" else "") ++ Py.str_int cents.

Section Main.
Context {W : Type} {P : Platform W} {T : Terminal W}.

(** [print(line)] *)
Definition print (line : string) : M (Console W) unit :=
  fun c => (Ok tt, mkConsole (cenv c) (stdout c ++ [line])%list).

(** Run a library call or a method of [Config] from the script. *)
Definition lift_io {A} (m : IO W A) : M (Console W) A :=
  fun c => let (r, e) := m (cenv c) in (r, mkConsole e (stdout c)).

(** Run a method of the processor object [p]; the object comes back
    with the value. *)
Definition run_processor {A} (m : M (State W) A) (p : ImageProcessor)
  : M (Console W) (A * ImageProcessor) :=
  fun c =>
    match m (mkState p (cenv c)) with
    | (Ok a, s) => (Ok (a, self_ s), mkConsole (env s) (stdout c))
    | (Raise x, s) => (Raise x, mkConsole (env s) (stdout c))
    end.

(** [input()] *)
Definition input : M (Console W) string :=
  fun c => let (r, w) := term_input (world (cenv c)) in
           (r, mkConsole (set_world w (cenv c)) (stdout c)).

(** [os.path.abspath(path)] *)
Definition abspath (path : string) : M (Console W) string :=
  fun c => (Ok (os_path_abspath (world (cenv c)) path), c).

(** The part of [main] that follows the check of the input
    directory: the settings, the batch, the results. *)
Definition report (config : Config) (processor : ImageProcessor)
  : M (Console W) unit :=
  print ("Input directory: " ++ input_dir config) ;;;
  print ("Output directory: " ++ output_dir config) ;;;
  print ("Minimum width requirement: " ++
         Py.str_int (min_width config) ++ "px") ;;;
  print ("Supported formats: " ++
         Py.join ", " (supported_formats config)) ;;;
  print (str_repeat "-" 60) ;;;
  start_time <- lift_io time_time ;;
  '(stats, processor) <-
     run_processor (process_directory (input_dir config)) processor ;;
  end_time <- lift_io time_time ;;
  print (String "010" (str_repeat "=" 60)) ;;;
  print "PROCESSING RESULTS" ;;;
  print (str_repeat "=" 60) ;;;
  print ("Total files found: " ++ Py.str_int (total stats)) ;;;
  print ("Successfully processed: " ++ Py.str_int (processed stats)) ;;;
  print ("Skipped (cached): " ++ Py.str_int (skipped stats)) ;;;
  print ("Errors: " ++ Py.str_int (errors stats)) ;;;
  print ("Processing time: " ++ format_2f (end_time - start_time)%Q ++
         " seconds") ;;;
  (if 0 <? processed stats then
     saved_to <- abspath (output_dir config) ;;
     print (String "010" "Processed images saved to: " ++ saved_to)
   else ret tt) ;;;
  (if 0 <? errors stats then
     print (String "010" (Py.str_int (errors stats) ++
            " files had errors and were not processed.")) ;;;
     print "Check the logs above for specific error messages."
   else ret tt) ;;;
  print (String "010" "Press Enter to exit...") ;;;
  input ;;;
  ret tt.

(** [main].  [new_config] is the outcome of [Config()], which raises
    when a variable of the environment does not parse. *)
Definition main (new_config : result Config) : M (Console W) unit :=
  print (str_repeat "=" 60) ;;;
  print "Image Resizing System" ;;;
  print (str_repeat "=" 60) ;;;
  config <- of_result new_config ;;
  lift_io (create_directories config) ;;;
  let processor := ImageProcessor_init config in
  ex <- lift_io (os_path_exists (input_dir config)) ;;
  if negb ex then
    print ("Error: Input directory does not exist: " ++ input_dir config) ;;;
    print "Please check the path in config.py" ;;;
    ret tt
  else report config processor.

(** The block under [if __name__ == "__main__"]: the exit status of the
    script.  An [Exception] out of [main] is printed and gives status
    1; falling off the end gives status 0. *)
Definition script (new_config : result Config) (c : Console W)
  : Z * Console W :=
  match main new_config c with
  | (Ok _, c') => (0, c')
  | (Raise e, c') =>
      (1, snd (print (String "010" "Unexpected error: " ++ e) c'))
  end.

End Main.

(** ** Laws of a platform *)

Section Laws.
Context {W : Type} (P : Platform W).

(** [os.makedirs(d, exist_ok=True)] that succeeds leaves [d] existing,
    and no [os.makedirs] makes an existing path disappear. *)
Definition makedirs_spec : Prop :=
  (forall w d w', plat_makedirs w d = (Ok tt, w') ->
                  path_exists w' d = true) /\
  (forall w d r w' q, plat_makedirs w d = (r, w') ->
                      path_exists w q = true -> path_exists w' q = true).

(** A text file that was written exists. *)
Definition write_creates : Prop :=
  forall w q text w', plat_write w q text = (Ok tt, w') ->
                      path_exists w' q = true.

(** Creating directories, opening and writing other paths and reading
    the clock leave the [os.stat] of [p] as it is. *)
Definition keeps_stat (p : string) : Prop :=
  (forall w d r w', plat_makedirs w d = (r, w') -> d <> p ->
                    plat_stat w' p = plat_stat w p) /\
  (forall w q r w', plat_open_w w q = (r, w') -> q <> p ->
                    plat_stat w' p = plat_stat w p) /\
  (forall w q text r w', plat_write w q text = (r, w') -> q <> p ->
                         plat_stat w' p = plat_stat w p) /\
  (forall w t w', plat_time w = (t, w') -> plat_stat w' p = plat_stat w p).

(** [os.path.join(root, name)] ends with [name]. *)
Definition join_keeps_name : Prop :=
  forall root name, ends_with (os_path_join root name) name.

End Laws.

Section MoreNotions.
Context {W : Type} {P : Platform W}.

(** A step appends lines to the output, and every line it appends
    satisfies [ok]. *)
Definition stdout_adds (ok : string -> Prop) (c c' : Console W) : Prop :=
  exists added,
    stdout c' = (stdout c ++ added)%list /\ Forall ok added.

(** The image [process_image] prepares from the opened one: colour
    normalisation, EXIF transposition and, when asked for, the border
    transform, each step only if the one before succeeded.  The
    normalisation does not look at the environment it is run in. *)
Definition prepared_image (self : ImageProcessor) (add_borders : bool)
    (img : Image) (e : Env W) : result Image :=
  match fst (to_rgb img e) with
  | Raise x => Raise x
  | Ok rgb =>
      match pil_exif_transpose rgb with
      | Raise x => Raise x
      | Ok upright =>
          if add_borders then _add_dark_borders self upright else Ok upright
      end
  end.

(** The three lines [main] prints first. *)
Definition banner : list string :=
  [str_repeat "=" 60; "Image Resizing System"; str_repeat "=" 60].

(** The state in which the loop of [process_directory] starts, [w1]
    being the world [os.makedirs] left. *)
Definition loop_start (root : string) (s : State W) (w1 : W) : State W :=
  let cfg := config (self_ s) in
  let image_files := collect_image_files cfg (plat_walk w1 root) in
  mkState (mkImageProcessor cfg 0 0 0)
    (add_log INFO
       ("Found " ++ Py.str_int (Z.of_nat (List.length image_files)) ++
        " image files to process")
       (emit (EvWalk root)
          (set_world w1
             (emit (EvMakedirs (output_dir cfg))
                (add_log INFO
                   ("Starting batch processing of directory: " ++ root)
                   (env s)))))).

End MoreNotions.

(** ** The in-memory platform, continued *)
Module SimTerminal.

(** Enter is pressed at once; relative paths are under [/work]. *)
#[global] Instance terminal : Terminal Sim.host := {|
  term_input := fun w => (Ok "", w);
  os_path_abspath := fun w p =>
    match p with
    | String "/" _ => p
    | _ => "/work/" ++ p
    end
|}.

(** The in-memory platform with a dangling link: [os.walk] lists
    [name] in every directory, and no file stands behind it. *)
Definition with_dangling (name : string) : Platform Sim.host := {|
  plat_stat := Sim.stat;
  plat_makedirs := Sim.makedirs;
  plat_walk := fun w root =>
    map (fun '(r, dirs, names) => (r, dirs, (names ++ [name])%list))
        (Sim.walk w root);
  os_path_join := Sim.join;
  os_path_basename := Sim.basename;
  os_path_splitext := Sim.splitext;
  plat_open_w := Sim.open_w;
  plat_write := Sim.write;
  plat_time := Sim.time;
  str_float := Py.format_1f;
  md5_hexdigest := Sim.digest;
  pil_open := Sim.image_open;
  pil_verify := Sim.verify;
  pil_convert := Sim.convert;
  pil_split := fun img => Ok [img];
  pil_paste_mask := Sim.paste_mask;
  pil_exif_transpose := fun img => Ok img;
  pil_resize_lanczos := Sim.resize;
  pil_save_jpeg := Sim.save
|}.

(** The same, the dangling link listed first. *)
Definition with_dangling_first (name : string) : Platform Sim.host := {|
  plat_stat := Sim.stat;
  plat_makedirs := Sim.makedirs;
  plat_walk := fun w root =>
    map (fun '(r, dirs, names) => (r, dirs, name :: names))
        (Sim.walk w root);
  os_path_join := Sim.join;
  os_path_basename := Sim.basename;
  os_path_splitext := Sim.splitext;
  plat_open_w := Sim.open_w;
  plat_write := Sim.write;
  plat_time := Sim.time;
  str_float := Py.format_1f;
  md5_hexdigest := Sim.digest;
  pil_open := Sim.image_open;
  pil_verify := Sim.verify;
  pil_convert := Sim.convert;
  pil_split := fun img => Ok [img];
  pil_paste_mask := Sim.paste_mask;
  pil_exif_transpose := fun img => Ok img;
  pil_resize_lanczos := Sim.resize;
  pil_save_jpeg := Sim.save
|}.

(** A directory that holds only a text file. *)
Definition notes_only : Sim.host :=
  Sim.mkHost
    [("docs", Sim.Dir); ("docs/notes.txt", Sim.File 9 12 None false)] 100.

(** A host on which the input directory of the configuration is a
    regular file, so that it cannot be created as a directory. *)
Definition blocked : Sim.host :=
  Sim.mkHost [(input_dir Demo.cfg, Sim.File 1 1 None false)] 100.

(** A host on which the output directory of the configuration is a
    regular file. *)
Definition blocked_output : Sim.host :=
  Sim.mkHost [(output_dir Demo.cfg, Sim.File 1 1 None false)] 100.

Definition console (h : Sim.host) : Console Sim.host :=
  mkConsole (mkEnv h [] []) [].

End SimTerminal.

(** * Properties *)

(** ** Strings *)

Lemma substring_full (s : string) : substring 0 (String.length s) s = s.
Proof. induction s as [|c s IH]; simpl; [reflexivity | now rewrite IH]. Qed.

Lemma substring_skip (pre suf : string) :
  substring (String.length pre) (String.length suf) (pre ++ suf) = suf.
Proof.
  induction pre as [|c pre IH]; simpl.
  - apply substring_full.
  - exact IH.
Qed.

Lemma length_append (a b : string) :
  String.length (a ++ b) = (String.length a + String.length b)%nat.
Proof. induction a as [|c a IH]; simpl; [reflexivity | now rewrite IH]. Qed.

Lemma append_assoc (a b c : string) : (a ++ b) ++ c = a ++ (b ++ c).
Proof. induction a as [|x a IH]; simpl; [reflexivity | now rewrite IH]. Qed.

Lemma append_inj_l (a b c : string) : a ++ b = a ++ c -> b = c.
Proof. induction a as [|x a IH]; simpl; [auto | intros [= H]; auto]. Qed.

Lemma split_at (s : string) :
  forall k, (k <= String.length s)%nat ->
  s = substring 0 k s ++ substring k (String.length s - k) s.
Proof.
  induction s as [|c s IH]; intros k Hk.
  - destruct k; reflexivity.
  - destruct k as [|k]; simpl.
    + now rewrite substring_full.
    + simpl in Hk. f_equal. apply IH. lia.
Qed.

(** [str.endswith] decides the suffix relation. *)
Lemma endswith_spec (s suffix : string) :
  Py.endswith s suffix = true <-> ends_with s suffix.
Proof.
  unfold Py.endswith, ends_with.
  rewrite andb_true_iff, Nat.leb_le, String.eqb_eq.
  split.
  - intros [Hle Hsub].
    exists (substring 0 (String.length s - String.length suffix) s).
    pose proof (split_at s (String.length s - String.length suffix)) as Hs.
    replace (String.length s - (String.length s - String.length suffix))%nat
      with (String.length suffix) in Hs by lia.
    rewrite Hsub in Hs. apply Hs. lia.
  - intros [pre ->]. rewrite length_append. split; [lia|].
    replace (String.length pre + String.length suffix - String.length suffix)%nat
      with (String.length pre) by lia.
    apply substring_skip.
Qed.

(** ** The extension check *)

(** Claim C10.  For a configuration built by [Config.__init__], whatever
    the environment supplies, [is_valid_image_format] answers true
    exactly when the lower-cased file name ends with [.jpg], [.jpeg] or
    [.png]; for every other name it answers false. *)
Theorem is_valid_image_format_iff
    (join : string -> string -> string) (mw q mx : Z) (ec : bool)
    (cd : string) (ra rd : Z) (filename : string) :
  is_valid_image_format (Config_init join mw q mx ec cd ra rd) filename = true
  <-> (ends_with (Py.lower filename) ".jpg" \/
       ends_with (Py.lower filename) ".jpeg" \/
       ends_with (Py.lower filename) ".png").
Proof.
  unfold is_valid_image_format, Py.any. simpl.
  rewrite !orb_true_iff, !endswith_spec. intuition discriminate.
Qed.

Example valid_format_upper_case :
  is_valid_image_format Demo.cfg "holiday/IMG_0001.JPG" = true.
Proof. reflexivity. Qed.

Example invalid_format_text :
  is_valid_image_format Demo.cfg "in/notes.txt" = false.
Proof. reflexivity. Qed.

(** ** The border transform *)

Lemma Sim_resize_spec : resize_spec Sim.platform.
Proof.
  intros img w h Hw Hh. simpl. unfold Sim.resize.
  destruct (size img) as [sw sh].
  replace (w <? 1) with false by (symmetry; apply Z.ltb_ge; lia).
  replace (h <? 1) with false by (symmetry; apply Z.ltb_ge; lia).
  simpl. eexists. repeat split.
Qed.

(** [int(a / b)] is the quotient truncated toward zero. *)
Lemma int_of_truediv (a b : Z) (q : Q) :
  Py.truediv a b = Some q -> Py.int_of_float q = Z.quot a b.
Proof.
  unfold Py.truediv. destruct (Z.eqb_spec b 0) as [|Hb]; [discriminate|].
  intros [= <-]. unfold Py.int_of_float.
  destruct b as [|p|p]; [congruence| |]; simpl.
  - now rewrite Z.mul_1_r.
  - rewrite <- Z.quot_opp_opp by discriminate. f_equal. lia.
Qed.

Lemma scaled_height_pos (mw w h : Z) :
  0 < w -> w < mw -> 0 < h -> 0 < (mw * h) / w.
Proof.
  intros Hw Hlt Hh.
  assert (h <= (mw * h) / w); [|lia].
  apply Z.div_le_lower_bound; nia.
Qed.

Section Borders.
Context {W : Type} {P : Platform W}.
Hypothesis Hresize : resize_spec P.

(** What [_add_dark_borders] returns for a narrow RGB image: the canvas
    is created with the size of the resized image, and the paste at
    [(0, 0)] spans that whole size. *)
Lemma add_dark_borders_narrow (self : ImageProcessor) (img : Image) :
  mode img = "RGB" ->
  0 < fst (size img) < min_width (config self) ->
  0 < snd (size img) ->
  let nw := min_width (config self) in
  let nh := (nw * snd (size img)) / fst (size img) in
  exists resized,
    pil_resize_lanczos img (nw, nh) = Ok resized /\
    size resized = (nw, nh) /\
    _add_dark_borders self img =
      Ok (mkImage "RGB" (nw, nh)
            (fun x y =>
               if ((0 <=? x) && (x <? 0 + nw) && (0 <=? y) && (y <? 0 + nh))%bool
               then getpixel resized (x - 0) (y - 0)
               else [0; 0; 0])).
Proof.
  intros Hmode [Hw Hlt] Hh nw nh.
  destruct (Hresize img nw nh) as (r & Hr & Hsz & Hmd).
  { unfold nw; lia. }
  { apply scaled_height_pos; assumption. }
  exists r. split; [exact Hr|]. split; [exact Hsz|].
  unfold _add_dark_borders.
  destruct (size img) as [width height] eqn:Esz. simpl in *.
  replace (min_width (config self) <=? width) with false
    by (symmetry; apply Z.leb_gt; lia).
  destruct (Py.truediv (min_width (config self) * height) width) as [q|] eqn:Eq.
  2:{ unfold Py.truediv in Eq. destruct (Z.eqb_spec width 0); [lia|discriminate]. }
  rewrite (int_of_truediv _ _ _ Eq).
  rewrite Z.quot_div_nonneg by nia.
  fold nw. fold nh. rewrite Hr.
  unfold Image_new.
  replace (nw <? 0) with false by (symmetry; apply Z.ltb_ge; unfold nw; lia).
  replace (nh <? 0) with false
    by (symmetry; apply Z.ltb_ge;
        pose proof (scaled_height_pos (min_width (config self)) width height
                      Hw Hlt Hh);
        unfold nh, nw; lia).
  simpl. unfold Image_paste. simpl.
  rewrite Hmd, Hmode. simpl. rewrite Hsz. reflexivity.
Qed.

(** Claim C1, as amended.  For every RGB image of positive size whose
    width is strictly below the minimum width, [_add_dark_borders]
    returns an image of dimensions exactly
    [(min_width, floor (min_width * height / width))]: the new height is
    the quotient truncated by [int], not rounded to the nearest
    integer. *)
Theorem add_dark_borders_size (self : ImageProcessor) (img : Image) :
  mode img = "RGB" ->
  0 < fst (size img) < min_width (config self) ->
  0 < snd (size img) ->
  exists out,
    _add_dark_borders self img = Ok out /\
    size out =
      (min_width (config self),
       (min_width (config self) * snd (size img)) / fst (size img)).
Proof.
  intros Hmode Hw Hh.
  destruct (add_dark_borders_narrow self img Hmode Hw Hh)
    as (r & _ & _ & Hout).
  eexists. split; [exact Hout|]. reflexivity.
Qed.

(** Claim C2.  For every RGB image of positive size whose width is
    strictly below the minimum width, the black canvas has exactly the
    size of the resized image, and the paste at offset [(0, 0)] covers
    it: every pixel of the output is the pixel of the resized image at
    the same coordinates.  No pixel of the dark fill stays exposed, on
    the right, at the bottom or anywhere else. *)
Theorem add_dark_borders_exposes_no_fill
    (self : ImageProcessor) (img : Image) :
  mode img = "RGB" ->
  0 < fst (size img) < min_width (config self) ->
  0 < snd (size img) ->
  exists resized out,
    pil_resize_lanczos img
      (min_width (config self),
       (min_width (config self) * snd (size img)) / fst (size img)) =
      Ok resized /\
    _add_dark_borders self img = Ok out /\
    size out = size resized /\
    forall x y,
      0 <= x < fst (size out) -> 0 <= y < snd (size out) ->
      getpixel out x y = getpixel resized x y.
Proof.
  intros Hmode Hw Hh.
  destruct (add_dark_borders_narrow self img Hmode Hw Hh)
    as (r & Hr & Hsz & Hout).
  exists r. eexists. split; [exact Hr|]. split; [exact Hout|].
  split; [simpl; now rewrite Hsz|].
  simpl. intros x y Hx Hy.
  match goal with
  | |- (if ?c then _ else _) = _ =>
      assert (E : c = true)
        by (rewrite !andb_true_iff, !Z.leb_le, !Z.ltb_lt; lia);
      rewrite E
  end.
  now rewrite !Z.sub_0_r.
Qed.

End Borders.

(** A 200 x 400 image under a minimum width of 600 comes out 600 x 1200. *)
Lemma add_dark_borders_size_witness :
  exists out,
    _add_dark_borders (ImageProcessor_init Demo.cfg) (Demo.white 200 400) =
      Ok out /\
    size out = (600, (600 * 400) / 200).
Proof.
  apply (add_dark_borders_size Sim_resize_spec
           (ImageProcessor_init Demo.cfg) (Demo.white 200 400));
    first [reflexivity | simpl; lia].
Defined.

(** Claim C1 fails as stated: a 500 x 333 image under a minimum width
    of 600 comes out 399 rows high, where rounding 399.6 to the nearest
    integer gives 400. *)
Lemma add_dark_borders_height_not_rounded :
  fst (size (Demo.white 500 333)) < min_width Demo.cfg /\
  nearest_int (inject_Z (600 * 333) / inject_Z 500) = 400 /\
  exists out,
    _add_dark_borders (ImageProcessor_init Demo.cfg) (Demo.white 500 333) =
      Ok out /\
    size out = (600, 399) /\
    size out <> (min_width Demo.cfg,
                 nearest_int (inject_Z (600 * 333) / inject_Z 500)).
Proof.
  split; [simpl; lia|]. split; [reflexivity|].
  eexists. split; [reflexivity|]. split; [reflexivity|].
  intros H. vm_compute in H. discriminate H.
Qed.

(** The 200 x 400 image of the end-to-end scenario: the output is
    600 x 1200 and is the resized image throughout. *)
Lemma add_dark_borders_exposes_no_fill_witness :
  exists resized out,
    pil_resize_lanczos (Demo.white 200 400) (600, (600 * 400) / 200) =
      Ok resized /\
    _add_dark_borders (ImageProcessor_init Demo.cfg) (Demo.white 200 400) =
      Ok out /\
    size out = size resized /\
    forall x y,
      0 <= x < fst (size out) -> 0 <= y < snd (size out) ->
      getpixel out x y = getpixel resized x y.
Proof.
  apply (add_dark_borders_exposes_no_fill Sim_resize_spec
           (ImageProcessor_init Demo.cfg) (Demo.white 200 400));
    first [reflexivity | simpl; lia].
Defined.

(** On that input the bottom-right pixel of the output is white image
    content, not the black of the canvas. *)
Example narrow_output_corner_is_content :
  match _add_dark_borders (ImageProcessor_init Demo.cfg) (Demo.white 200 400)
  with
  | Ok out => size out = (600, 1200) /\ getpixel out 599 1199 = [255; 255; 255]
  | Raise _ => False
  end.
Proof. vm_compute. split; reflexivity. Qed.

(** ** Rules for computations *)

Section Rules.
Context {S : Type} (R : S -> S -> Prop).
Hypothesis R_refl : forall s, R s s.
Hypothesis R_trans : forall a b c, R a b -> R b c -> R a c.

Lemma preserves_ret {A} (a : A) : preserves R (ret a).
Proof. intros s r s' [= _ <-]. apply R_refl. Qed.

Lemma preserves_raise {A} (x : exn) : preserves R (@raise S A x).
Proof. intros s r s' [= _ <-]. apply R_refl. Qed.

Lemma preserves_of_result {A} (v : result A) : preserves R (of_result v).
Proof. intros s r s' [= _ <-]. apply R_refl. Qed.

Lemma preserves_bind {A B} (m : M S A) (k : A -> M S B) :
  preserves R m -> (forall a, preserves R (k a)) -> preserves R (bind m k).
Proof.
  intros Hm Hk s r s'. unfold bind.
  destruct (m s) as [[a|x] s1] eqn:E; intros H.
  - eapply R_trans; [eapply Hm; eassumption | eapply Hk; eassumption].
  - inversion H; subst. eapply Hm; eassumption.
Qed.

Lemma preserves_try_except {A} (m : M S A) (h : exn -> M S A) :
  preserves R m -> (forall x, preserves R (h x)) ->
  preserves R (try_except m h).
Proof.
  intros Hm Hh s r s'. unfold try_except.
  destruct (m s) as [[a|x] s1] eqn:E; intros H.
  - inversion H; subst. eapply Hm; eassumption.
  - eapply R_trans; [eapply Hm; eassumption | eapply Hh; eassumption].
Qed.

End Rules.

(** ** What each method writes to the log *)

Section LogFrame.
Context {W : Type} {P : Platform W}.

Lemma log_adds_refl ok (e : Env W) : log_adds ok e e.
Proof. intros x Hx; now left. Qed.

Lemma log_adds_trans ok (a b c : Env W) :
  log_adds ok a b -> log_adds ok b c -> log_adds ok a c.
Proof.
  intros Hab Hbc x Hx. destruct (Hbc x Hx) as [Hb|Hok]; [|now right].
  apply Hab, Hb.
Qed.

Lemma log_adds_same ok (e e' : Env W) : log e' = log e -> log_adds ok e e'.
Proof. intros E x Hx. left. now rewrite <- E. Qed.

(** A library call leaves the log as it is. *)
Ltac quiet_call :=
  let e := fresh "e" in let r := fresh "r" in let e' := fresh "e'" in
  let H := fresh "H" in
  intros e r e' H; apply log_adds_same; cbv beta delta
    [os_stat os_makedirs os_walk open_w file_write time_time Image_open
     Image_verify Image_save] in H;
  repeat match type of H with
         | context [let (_, _) := ?x in _] => destruct x
         end;
  inversion H; subst; reflexivity.

Lemma quiet_os_stat ok p : preserves (log_adds ok) (os_stat p).
Proof. quiet_call. Qed.

Lemma quiet_os_makedirs ok p : preserves (log_adds ok) (os_makedirs p).
Proof. quiet_call. Qed.

Lemma quiet_open_w ok p : preserves (log_adds ok) (open_w p).
Proof. quiet_call. Qed.

Lemma quiet_file_write ok p t : preserves (log_adds ok) (file_write p t).
Proof. quiet_call. Qed.

Lemma quiet_time_time ok : preserves (log_adds ok) time_time.
Proof. quiet_call. Qed.

Lemma quiet_Image_open ok p : preserves (log_adds ok) (Image_open p).
Proof. quiet_call. Qed.

Lemma quiet_Image_verify ok p i : preserves (log_adds ok) (Image_verify p i).
Proof. quiet_call. Qed.

Lemma quiet_Image_save ok i p q : preserves (log_adds ok) (Image_save i p q).
Proof. quiet_call. Qed.

Lemma logger_adds (ok : level * string -> Prop) lv msg :
  ok (lv, msg) -> preserves (log_adds ok) (logger (W:=W) lv msg).
Proof.
  intros Hok e r e' [= _ <-] x Hx. simpl in Hx.
  apply in_app_or in Hx. destruct Hx as [Hx|[<-|[]]]; [now left|now right].
Qed.

Ltac frame :=
  repeat first
    [ apply preserves_ret; [apply log_adds_refl]
    | apply preserves_raise; [apply log_adds_refl]
    | apply preserves_of_result; [apply log_adds_refl]
    | apply preserves_bind; [apply log_adds_trans | | intros]
    | apply preserves_try_except; [apply log_adds_trans | | intros]
    | apply quiet_os_stat | apply quiet_os_makedirs | apply quiet_open_w
    | apply quiet_file_write | apply quiet_time_time | apply quiet_Image_open
    | apply quiet_Image_verify | apply quiet_Image_save
    | apply logger_adds
    | match goal with
      | |- preserves _ (if ?b then _ else _) => destruct b
      | |- preserves _ (match ?x with _ => _ end) => destruct x
      end ].

Lemma is_cached_log self p :
  preserves (log_adds not_warning) (is_cached self p).
Proof. unfold is_cached, get_cache_key, os_path_exists. frame. Qed.

Lemma mark_as_cached_log self p :
  preserves (log_adds not_warning) (mark_as_cached self p).
Proof. unfold mark_as_cached, get_cache_key. frame. Qed.

Lemma validate_image_log self p :
  preserves (log_adds not_warning) (validate_image self p).
Proof.
  unfold validate_image, os_path_exists, os_path_getsize, logger_info.
  frame. discriminate.
Qed.

Lemma process_image_log self i o b :
  preserves (log_adds not_warning) (process_image self i o b).
Proof.
  unfold process_image, to_rgb, logger_error. frame. all: discriminate.
Qed.

End LogFrame.

(** ** Formatting a size in megabytes *)

Lemma round_half_even_nearest (x : Q) :
  2 * Z.abs (Qnum x - Py.round_half_even x * Zpos (Qden x)) <= Zpos (Qden x).
Proof.
  unfold Py.round_half_even.
  pose proof (Z.div_mod (Qnum x) (Zpos (Qden x))) as Hdm.
  pose proof (Z.mod_pos_bound (Qnum x) (Zpos (Qden x))) as Hb.
  assert (Hd : 0 < Zpos (Qden x)) by lia.
  specialize (Hb Hd). specialize (Hdm ltac:(lia)).
  set (d := Zpos (Qden x)) in *. set (n := Qnum x) in *.
  set (f := n / d) in *. set (r := n mod d) in *.
  destruct (Z.ltb_spec (2 * r) d); [nia|].
  destruct (Z.ltb_spec d (2 * r)); [nia|].
  destruct (Z.even f); nia.
Qed.

Lemma round_half_even_nonneg (x : Q) :
  0 <= Qnum x -> 0 <= Py.round_half_even x.
Proof.
  intros Hn. unfold Py.round_half_even.
  assert (0 <= Qnum x / Zpos (Qden x)) by (apply Z.div_pos; lia).
  destruct (_ <? _); [lia|]. destruct (_ <? _); [lia|].
  destruct (Z.even _); lia.
Qed.

Lemma digit_length (d : Z) :
  0 <= d <= 9 -> String.length (Py.str_int d) = 1%nat.
Proof.
  intros Hd.
  assert (d = 0 \/ d = 1 \/ d = 2 \/ d = 3 \/ d = 4 \/ d = 5 \/ d = 6 \/
          d = 7 \/ d = 8 \/ d = 9) as Hc by lia.
  repeat (destruct Hc as [-> | Hc]; [reflexivity|]). subst; reflexivity.
Qed.

(** The text of [f"{size / (1024 * 1024):.1f}"] for a byte count. *)
Lemma format_mb (sz : Z) :
  0 <= sz ->
  exists t,
    0 <= t /\
    2 * Z.abs (sz * 10 - t * 1048576) <= 1048576 /\
    String.length (Py.str_int (t mod 10)) = 1%nat /\
    Py.format_1f (sz * 1 # 1048576) =
      Py.str_int (t / 10) ++ "." ++ Py.str_int (t mod 10).
Proof.
  intros Hsz. exists (Py.round_half_even ((sz * 1 # 1048576) * 10)).
  pose proof (round_half_even_nearest ((sz * 1 # 1048576) * 10)) as Hn.
  pose proof (round_half_even_nonneg ((sz * 1 # 1048576) * 10)) as Hp.
  change (Qnum ((sz * 1 # 1048576) * 10)) with (sz * 1 * 10) in *.
  change (Zpos (Qden ((sz * 1 # 1048576) * 10))) with 1048576 in *.
  set (t := Py.round_half_even ((sz * 1 # 1048576) * 10)) in *.
  assert (Ht : 0 <= t) by (apply Hp; lia).
  split; [exact Ht|]. split; [rewrite Z.mul_1_r in Hn; exact Hn|].
  split.
  - apply digit_length. pose proof (Z.mod_pos_bound t 10); lia.
  - unfold Py.format_1f. fold t.
    change (Qnum (sz * 1 # 1048576)) with (sz * 1).
    replace (sz * 1 <? 0) with false by (symmetry; apply Z.ltb_ge; lia).
    rewrite Z.abs_eq by exact Ht. reflexivity.
Qed.

(** ** The methods, step by step *)

Section Steps.
Context {W : Type} {P : Platform W}.

(** [is_cached], by the outcome of its two [os.stat] calls. *)
Lemma is_cached_eq (self : ImageProcessor) (p : string) (e : Env W) :
  is_cached self p e =
  if negb (enable_caching (config self)) then (Ok false, e)
  else
    match plat_stat (world e) p with
    | Raise x => (Raise x, emit (EvStat p) e)
    | Ok st =>
        let cache_file := marker_file (config self) (cache_key_of p st) in
        (Ok (path_exists (world e) cache_file),
         emit (EvStat cache_file) (emit (EvStat p) e))
    end.
Proof.
  unfold is_cached. destruct (enable_caching (config self)); simpl; [|reflexivity].
  unfold bind, get_cache_key, bind, os_stat, os_path_exists, try_except, bind,
    os_stat, ret, path_exists, marker_file, cache_key_of.
  destruct (plat_stat (world e) p) as [st|x]; simpl; [|reflexivity].
  destruct (plat_stat (world e) _) as [st'|x]; reflexivity.
Qed.

(** [file_size_mb > max_file_size_mb] compares the byte count with the
    limit in bytes. *)
Lemma over_limit_iff (sz limit : Z) :
  negb (Qle_bool (sz * 1 # 1048576) (inject_Z limit)) = (limit * 1048576 <? sz).
Proof.
  unfold Qle_bool. simpl. rewrite Z.ltb_antisym. f_equal.
  rewrite !Z.mul_1_r. reflexivity.
Qed.

(** [validate_image], by the outcome of each check in turn. *)
Lemma validate_image_eq (self : ImageProcessor) (p : string) (e : Env W) :
  validate_image self p e =
  let cfg := config self in
  if negb (is_valid_image_format cfg p) then
    (Ok (false,
         "Invalid image extension. Supported formats are " ++
           Py.join ", " (supported_formats cfg),
         false), e)
  else
    let e1 := emit (EvStat p) e in
    match plat_stat (world e) p with
    | Raise _ => (Ok (false, "File does not exist", false), e1)
    | Ok st =>
        let e2 := emit (EvStat p) e1 in
        if max_file_size_mb cfg * 1048576 <? st_size st then
          (Ok (false,
               "File too large (" ++ Py.format_1f (st_size st * 1 # 1048576) ++
                 "MB). Maximum allowed: " ++
                 Py.str_int (max_file_size_mb cfg) ++ "MB",
               false), e2)
        else
          let e3 := emit (EvImageOpen p) e2 in
          match pil_open (world e) p with
          | Raise x => (Ok (false, "Error validating image: " ++ x, false), e3)
          | Ok img =>
              let e4 := emit (EvImageVerify p) e3 in
              match pil_verify (world e) p img with
              | Raise x =>
                  (Ok (false, "Error validating image: " ++ x, false), e4)
              | Ok _ =>
                  let nb := fst (size img) <? min_width cfg in
                  (Ok (true, "", nb),
                   if nb then
                     add_log INFO
                       ("Image " ++ os_path_basename p ++ " is " ++
                        Py.str_int (fst (size img)) ++
                        "px wide, will add dark borders to meet " ++
                        Py.str_int (min_width cfg) ++ "px requirement") e4
                   else e4)
              end
          end
    end.
Proof.
  unfold validate_image, try_except. cbv zeta.
  destruct (is_valid_image_format (config self) p); simpl; [|reflexivity].
  unfold bind at 1. unfold os_path_exists, try_except, bind, os_stat, ret. simpl.
  destruct (plat_stat (world e) p) as [st|x] eqn:Est; simpl; [|reflexivity].
  unfold os_path_getsize, bind, os_stat, ret. simpl. rewrite Est.
  change (inject_Z (st_size st) / inject_Z 1048576)%Q
    with (st_size st * 1 # 1048576).
  rewrite over_limit_iff.
  destruct (max_file_size_mb (config self) * 1048576 <? st_size st); simpl;
    [reflexivity|].
  unfold Image_open. simpl.
  destruct (pil_open (world e) p) as [img|x]; simpl; [|reflexivity].
  destruct (size img) as [width height]. unfold Image_verify. simpl.
  destruct (pil_verify (world e) p img) as [[]|x]; simpl; [|reflexivity].
  destruct (width <? min_width (config self)); reflexivity.
Qed.

(** [process_single_image], by the outcome of each method it calls. *)
Lemma process_single_image_eq (input_path : string) (s : State W) :
  process_single_image input_path s =
  let self := self_ s in
  match is_cached self input_path (env s) with
  | (Raise x, e1) => (Raise x, mkState self e1)
  | (Ok true, e1) =>
      (Ok true,
       mkState (bump_skipped self)
               (add_log INFO ("Skipping cached file: " ++ input_path) e1))
  | (Ok false, e1) =>
      match validate_image self input_path e1 with
      | (Raise x, e2) => (Raise x, mkState self e2)
      | (Ok (false, error_msg, _), e2) =>
          (Ok false,
           mkState (bump_error self)
                   (add_log WARNING
                      ("Invalid image " ++ input_path ++ ": " ++ error_msg) e2))
      | (Ok (true, _, needs_borders), e2) =>
          let output_path := derive_output_path self input_path needs_borders in
          match process_image self input_path output_path needs_borders e2 with
          | (Raise x, e3) => (Raise x, mkState self e3)
          | (Ok false, e3) => (Ok false, mkState (bump_error self) e3)
          | (Ok true, e3) =>
              match mark_as_cached self input_path e3 with
              | (Raise x, e4) => (Raise x, mkState self e4)
              | (Ok _, e4) =>
                  (Ok true,
                   mkState (bump_processed self)
                     (add_log INFO
                        ("Successfully processed: " ++ input_path ++ " -> " ++
                         output_path ++
                         (if needs_borders then " (with dark borders)" else ""))
                        e4))
              end
          end
      end
  end.
Proof.
  unfold process_single_image, bind, get_self, io. simpl.
  destruct (is_cached (self_ s) input_path (env s)) as [[[|]|x] e1]; simpl;
    try reflexivity.
  destruct (validate_image (self_ s) input_path e1)
    as [[[[[|] msg] nb]|x] e2]; simpl; try reflexivity.
  destruct (process_image (self_ s) input_path _ nb e2) as [[[|]|x] e3]; simpl;
    try reflexivity.
  destruct (mark_as_cached (self_ s) input_path e3) as [[[]|x] e4]; simpl;
    reflexivity.
Qed.
End Steps.

(** ** Validation *)

Section Validation.
Context {W : Type} {P : Platform W}.

(** Claim C6.  [validate_image] runs its four checks in order and stops
    at the first that fails.  An unsupported extension is rejected
    without any access to the file system; a missing file after one
    [os.stat]; a file over the limit after the size is read and before
    the image is opened, with a message that gives the measured size in
    megabytes to the nearest tenth, one digit after the point, and the
    configured limit; a failure of [Image.open] or [verify] last, with
    the text of the exception. *)
Theorem validate_image_short_circuits
    (self : ImageProcessor) (p : string) (e : Env W) :
  (is_valid_image_format (config self) p = false ->
   validate_image self p e =
     (Ok (false,
          "Invalid image extension. Supported formats are " ++
            Py.join ", " (supported_formats (config self)),
          false), e))
  /\
  (is_valid_image_format (config self) p = true ->
   path_exists (world e) p = false ->
   validate_image self p e =
     (Ok (false, "File does not exist", false), emit (EvStat p) e))
  /\
  (forall st,
     is_valid_image_format (config self) p = true ->
     plat_stat (world e) p = Ok st ->
     0 <= st_size st ->
     max_file_size_mb (config self) * 1048576 < st_size st ->
     exists t,
       0 <= t /\
       2 * Z.abs (st_size st * 10 - t * 1048576) <= 1048576 /\
       String.length (Py.str_int (t mod 10)) = 1%nat /\
       validate_image self p e =
         (Ok (false,
              "File too large (" ++ Py.str_int (t / 10) ++ "." ++
                Py.str_int (t mod 10) ++ "MB). Maximum allowed: " ++
                Py.str_int (max_file_size_mb (config self)) ++ "MB",
              false),
          emit (EvStat p) (emit (EvStat p) e)))
  /\
  (forall st x,
     is_valid_image_format (config self) p = true ->
     plat_stat (world e) p = Ok st ->
     st_size st <= max_file_size_mb (config self) * 1048576 ->
     (pil_open (world e) p = Raise x \/
      exists img, pil_open (world e) p = Ok img /\
                  pil_verify (world e) p img = Raise x) ->
     fst (validate_image self p e) =
       Ok (false, "Error validating image: " ++ x, false)).
Proof.
  rewrite validate_image_eq. cbv zeta. repeat split.
  - intros ->. reflexivity.
  - intros -> Hex. unfold path_exists in Hex. simpl.
    destruct (plat_stat (world e) p); [discriminate|reflexivity].
  - intros st -> Hst Hpos Hbig. simpl. rewrite Hst.
    replace (_ <? _) with true by (symmetry; apply Z.ltb_lt; exact Hbig).
    destruct (format_mb (st_size st) Hpos) as (t & Ht & Hnear & Hlen & Hfmt).
    exists t. repeat split; try assumption. rewrite Hfmt.
    rewrite !append_assoc. reflexivity.
  - intros st x -> Hst Hsmall Hbad. simpl. rewrite Hst.
    replace (_ <? _) with false by (symmetry; apply Z.ltb_ge; exact Hsmall).
    destruct Hbad as [-> | (img & -> & ->)]; reflexivity.
Qed.

(** Claim C8.  When the extension, existence and size checks pass and
    the image decodes ([Image.open] and [verify] succeed),
    [validate_image] returns [(True, "", width < min_width)]; at
    [width = min_width] the third component is false. *)
Theorem validate_image_needs_borders
    (self : ImageProcessor) (p : string) (e : Env W)
    (st : stat_result) (img : Image) :
  is_valid_image_format (config self) p = true ->
  plat_stat (world e) p = Ok st ->
  st_size st <= max_file_size_mb (config self) * 1048576 ->
  pil_open (world e) p = Ok img ->
  pil_verify (world e) p img = Ok tt ->
  fst (validate_image self p e) =
    Ok (true, "", fst (size img) <? min_width (config self))
  /\ (fst (size img) = min_width (config self) ->
      fst (validate_image self p e) = Ok (true, "", false)).
Proof.
  intros Hfmt Hst Hsmall Hopen Hver.
  assert (E : fst (validate_image self p e) =
              Ok (true, "", fst (size img) <? min_width (config self))).
  { rewrite validate_image_eq. cbv zeta. rewrite Hfmt, Hst. simpl.
    replace (_ <? st_size st) with false
      by (symmetry; apply Z.ltb_ge; exact Hsmall).
    rewrite Hopen, Hver. reflexivity. }
  split; [exact E|].
  intros Heq. rewrite E, Heq, Z.ltb_irrefl. reflexivity.
Qed.

End Validation.

(** ** The marker cache *)

Section Cache.
Context {W : Type} {P : Platform W}.

(** Claim C5.  With caching disabled [is_cached] returns false and
    touches nothing.  With caching enabled, for a path whose [os.stat]
    gives modification time and size, it returns whether the marker
    file [{cache_key}.txt] exists in the cache directory, the key being
    the digest of path, underscore, modification time, underscore,
    size; the world is left as it was.  In all, it returns true exactly
    when caching is enabled, the path can be stat-ed and that marker
    exists. *)
Theorem is_cached_spec (self : ImageProcessor) (p : string) (e : Env W) :
  (enable_caching (config self) = false ->
   is_cached self p e = (Ok false, e))
  /\
  (enable_caching (config self) = true ->
   forall st, plat_stat (world e) p = Ok st ->
     fst (is_cached self p e) =
       Ok (path_exists (world e)
             (os_path_join (cache_dir (config self))
                (md5_hexdigest
                   (p ++ "_" ++ str_float (st_mtime st) ++ "_" ++
                    Py.str_int (st_size st)) ++ ".txt")))
     /\ world (snd (is_cached self p e)) = world e)
  /\
  (fst (is_cached self p e) = Ok true <->
   enable_caching (config self) = true /\
   exists st,
     plat_stat (world e) p = Ok st /\
     path_exists (world e)
       (os_path_join (cache_dir (config self))
          (md5_hexdigest
             (p ++ "_" ++ str_float (st_mtime st) ++ "_" ++
              Py.str_int (st_size st)) ++ ".txt")) = true).
Proof.
  rewrite is_cached_eq. split; [|split].
  - intros ->. reflexivity.
  - intros -> st ->. simpl. split; reflexivity.
  - destruct (enable_caching (config self)); simpl.
    + destruct (plat_stat (world e) p) as [st|x]; simpl.
      * split.
        -- intros [= H]. split; [reflexivity|]. exists st. split; [reflexivity|].
           exact H.
        -- intros [_ (st' & [= <-] & H)]. f_equal. exact H.
      * split; [discriminate|]. intros [_ (st' & H & _)]. discriminate.
    + split; [discriminate|]. intros [H _]. discriminate.
Qed.

(** Once [os.stat] succeeds on the path, validation never answers
    "File does not exist". *)
Lemma validate_image_never_missing
    (self : ImageProcessor) (p : string) (e : Env W) st :
  plat_stat (world e) p = Ok st ->
  snd (fst (match fst (validate_image self p e) with
            | Ok v => v
            | Raise _ => (false, "", false)
            end)) <> "File does not exist".
Proof.
  intros Hst. rewrite validate_image_eq. cbv zeta. rewrite Hst.
  destruct (negb _); simpl; [discriminate|].
  destruct (_ <? _); simpl; [discriminate|].
  destruct (pil_open _ _); simpl; [|discriminate].
  destruct (pil_verify _ _ _); simpl; discriminate.
Qed.

(** Claim C3.  With caching enabled, [process_single_image] on a path
    whose [os.stat] fails raises that exception out of [is_cached]: it
    returns no boolean, changes no counter, logs nothing and never
    reaches validation.  With caching enabled no run of
    [process_single_image] logs the warning of the "File does not
    exist" branch; with caching disabled the same path reaches that
    branch and is counted as an error. *)
Theorem stat_failure_escapes_process_single_image
    (input_path : string) (s : State W) :
  (enable_caching (config (self_ s)) = true ->
   forall x, plat_stat (world (env s)) input_path = Raise x ->
     process_single_image input_path s =
       (Raise x, mkState (self_ s) (emit (EvStat input_path) (env s))))
  /\
  (enable_caching (config (self_ s)) = true ->
   forall r s',
     process_single_image input_path s = (r, s') ->
     In (WARNING, "Invalid image " ++ input_path ++ ": File does not exist")
        (log (env s')) ->
     In (WARNING, "Invalid image " ++ input_path ++ ": File does not exist")
        (log (env s)))
  /\
  (enable_caching (config (self_ s)) = false ->
   is_valid_image_format (config (self_ s)) input_path = true ->
   forall x, plat_stat (world (env s)) input_path = Raise x ->
     exists s',
       process_single_image input_path s = (Ok false, s') /\
       error_count (self_ s') = error_count (self_ s) + 1 /\
       In (WARNING, "Invalid image " ++ input_path ++ ": File does not exist")
          (log (env s'))).
Proof.
  split; [|split].
  - intros Hc x Hst. rewrite process_single_image_eq. cbv zeta.
    rewrite is_cached_eq, Hc, Hst. reflexivity.
  - intros Hc r s' Hrun Hin.
    rewrite process_single_image_eq in Hrun. cbv zeta in Hrun.
    assert (Hkeep : forall (e' : Env W),
              log_adds not_warning (env s) e' ->
              In (WARNING,
                  "Invalid image " ++ input_path ++ ": File does not exist")
                 (log e') ->
              In (WARNING,
                  "Invalid image " ++ input_path ++ ": File does not exist")
                 (log (env s))).
    { intros e' Hadds Hx. destruct (Hadds _ Hx) as [H|H]; [exact H|].
      exfalso. apply H. reflexivity. }
    destruct (is_cached (self_ s) input_path (env s)) as [[cached|x] e1] eqn:Ecache.
    2:{ inversion Hrun; subst. simpl in Hin.
        eapply Hkeep; [eapply is_cached_log; eassumption | exact Hin]. }
    pose proof (is_cached_log _ _ _ _ _ Ecache) as F1.
    destruct cached.
    { inversion Hrun; subst. simpl in Hin.
      apply in_app_or in Hin. destruct Hin as [Hin|[Hin|[]]]; [|discriminate].
      eapply Hkeep; eassumption. }
    assert (Hstat : exists st, plat_stat (world e1) input_path = Ok st).
    { rewrite is_cached_eq, Hc in Ecache. simpl in Ecache.
      destruct (plat_stat (world (env s)) input_path) as [st|x] eqn:Est;
        [|discriminate].
      inversion Ecache; subst. simpl. eauto. }
    destruct Hstat as [st Hst].
    pose proof (validate_image_never_missing (self_ s) input_path e1 st Hst) as Hmsg.
    destruct (validate_image (self_ s) input_path e1)
      as [[[[valid msg] nb]|x] e2] eqn:Eval.
    2:{ inversion Hrun; subst. simpl in Hin.
        eapply Hkeep; [|exact Hin].
        eapply log_adds_trans; [exact F1|].
        eapply validate_image_log; eassumption. }
    pose proof (validate_image_log _ _ _ _ _ Eval) as F2.
    assert (F12 : log_adds not_warning (env s) e2)
      by (eapply log_adds_trans; eassumption).
    simpl in Hmsg.
    destruct valid.
    2:{ inversion Hrun; subst. simpl in Hin.
        apply in_app_or in Hin. destruct Hin as [Hin|[Hin|[]]].
        - eapply Hkeep; eassumption.
        - exfalso. apply Hmsg. inversion Hin as [Heq].
          apply append_inj_l in Heq. injection Heq as Heq. exact Heq. }
    destruct (process_image (self_ s) input_path _ nb e2) as [[ok|x] e3] eqn:Eproc.
    2:{ inversion Hrun; subst. simpl in Hin.
        eapply Hkeep; [|exact Hin].
        eapply log_adds_trans; [exact F12|].
        eapply process_image_log; eassumption. }
    pose proof (process_image_log _ _ _ _ _ _ _ Eproc) as F3.
    assert (F123 : log_adds not_warning (env s) e3)
      by (eapply log_adds_trans; eassumption).
    destruct ok.
    2:{ inversion Hrun; subst. simpl in Hin. eapply Hkeep; eassumption. }
    destruct (mark_as_cached (self_ s) input_path e3) as [[[]|x] e4] eqn:Emark;
      pose proof (mark_as_cached_log _ _ _ _ _ Emark) as F4;
      inversion Hrun; subst; simpl in Hin.
    + apply in_app_or in Hin. destruct Hin as [Hin|[Hin|[]]]; [|discriminate].
      eapply Hkeep; [|exact Hin]. eapply log_adds_trans; eassumption.
    + eapply Hkeep; [|exact Hin]. eapply log_adds_trans; eassumption.
  - intros Hc Hfmt x Hst. rewrite process_single_image_eq. cbv zeta.
    rewrite is_cached_eq, Hc. simpl.
    rewrite validate_image_eq. cbv zeta. rewrite Hfmt, Hst. simpl.
    eexists. split; [reflexivity|]. split; [reflexivity|].
    simpl. apply in_or_app. right. left. reflexivity.
Qed.

(** Claim C9.  When [is_cached] answers true, [process_single_image]
    returns true with the skipped count one higher and the other two
    counters as they were.  The world is unchanged, so no output file
    and no marker is written; the only accesses are the two [os.stat]
    calls of the cache lookup, so the source file is never opened. *)
Theorem cached_file_is_skipped (input_path : string) (s : State W) :
  fst (is_cached (self_ s) input_path (env s)) = Ok true ->
  exists st,
    plat_stat (world (env s)) input_path = Ok st /\
    process_single_image input_path s =
      (Ok true,
       mkState
         (mkImageProcessor (config (self_ s)) (processed_count (self_ s))
            (skipped_count (self_ s) + 1) (error_count (self_ s)))
         (mkEnv (world (env s))
            (log (env s) ++ [(INFO, "Skipping cached file: " ++ input_path)])
            (trace (env s) ++
               [EvStat input_path;
                EvStat (marker_file (config (self_ s))
                          (cache_key_of input_path st))]))).
Proof.
  intros Hc. rewrite process_single_image_eq. cbv zeta.
  rewrite is_cached_eq in *.
  destruct (enable_caching (config (self_ s))); simpl in *; [|discriminate].
  destruct (plat_stat (world (env s)) input_path) as [st|x]; [|discriminate].
  exists st. split; [reflexivity|].
  simpl in Hc. injection Hc as ->.
  unfold add_log, emit, bump_skipped. simpl.
  rewrite <- app_assoc. reflexivity.
Qed.

End Cache.

(** ** Batches *)

Section Batch.
Context {W : Type} {P : Platform W}.

Lemma validate_image_total (self : ImageProcessor) (p : string) (e : Env W) :
  exists v e', validate_image self p e = (Ok v, e').
Proof.
  rewrite validate_image_eq. cbv zeta.
  destruct (negb _); [eauto|].
  destruct (plat_stat _ _); [|eauto].
  destruct (_ <? _); [eauto|].
  destruct (pil_open _ _); [|eauto].
  destruct (pil_verify _ _ _); eauto.
Qed.

Lemma process_image_total (self : ImageProcessor) (i o : string) (b : bool)
    (e : Env W) :
  exists ok e', process_image self i o b e = (Ok ok, e').
Proof.
  unfold process_image, try_except.
  match goal with
  | |- context [match ?m e with _ => _ end] => destruct (m e) as [[ok|x] e1]
  end.
  - eauto.
  - unfold bind, logger_error, logger, ret. simpl. eauto.
Qed.

Lemma process_single_image_counts (p : string) (s : State W) r s' :
  process_single_image p s = (r, s') ->
  match r with
  | Ok _ => one_counter_incremented (self_ s) (self_ s')
  | Raise _ => self_ s' = self_ s
  end.
Proof.
  rewrite process_single_image_eq. cbv zeta.
  destruct (is_cached _ _ _) as [[[|]|x] e1].
  2: destruct (validate_image _ _ _) as [[[[[|] msg] nb]|x] e2].
  2: destruct (process_image _ _ _ _ _) as [[[|]|x] e3].
  2: destruct (mark_as_cached _ _ _) as [[[]|x] e4].
  all: intros [= <- <-]; simpl; try reflexivity;
    unfold one_counter_incremented, bump_skipped, bump_error, bump_processed;
    simpl; intuition lia.
Qed.

Lemma for_each_counts (l : list string) :
  forall (s s' : State W),
    for_each process_single_image l s = (Ok tt, s') ->
    config (self_ s') = config (self_ s) /\
    counted (self_ s') = counted (self_ s) + Z.of_nat (List.length l).
Proof.
  induction l as [|f rest IH]; intros s s' H.
  - inversion H; subst. split; [reflexivity | simpl; lia].
  - simpl in H. unfold bind in H.
    destruct (process_single_image f s) as [[b|x] s1] eqn:E; [|discriminate].
    apply process_single_image_counts in E. destruct E as [Hcfg Hone].
    apply IH in H. destruct H as [Hcfg' Hsum].
    split; [congruence|].
    rewrite Hsum. unfold counted.
    change (List.length (f :: rest)) with (S (List.length rest)).
    rewrite Nat2Z.inj_succ. lia.
Qed.

Lemma collect_length (cfg : Config)
    (walked : list (string * list string * list string)) :
  List.length (collect_image_files cfg walked) =
  List.length (filter (is_valid_image_format cfg) (flat_map snd walked)).
Proof.
  unfold collect_image_files.
  induction walked as [|[[root dirs] fs] rest IH]; [reflexivity|].
  simpl. rewrite filter_app, !length_app, length_map, IH. reflexivity.
Qed.

Lemma process_single_image_returns (p : string) (s : State W) :
  enable_caching (config (self_ s)) = false ->
  exists b s', process_single_image p s = (Ok b, s') /\
               config (self_ s') = config (self_ s).
Proof.
  intros Hc. rewrite process_single_image_eq. cbv zeta.
  rewrite is_cached_eq, Hc. simpl.
  destruct (validate_image_total (self_ s) p (env s)) as ([[valid msg] nb] & e2 & ->).
  destruct valid; [|eauto].
  destruct (process_image_total (self_ s) p
              (derive_output_path (self_ s) p nb) nb e2) as (ok & e3 & ->).
  destruct ok; [|eauto].
  unfold mark_as_cached. rewrite Hc. simpl. eauto.
Qed.

Lemma for_each_returns (l : list string) :
  forall s : State W,
    enable_caching (config (self_ s)) = false ->
    exists s', for_each process_single_image l s = (Ok tt, s').
Proof.
  induction l as [|f rest IH]; intros s Hc; simpl.
  - unfold ret. eauto.
  - unfold bind.
    destruct (process_single_image_returns f s Hc) as (b & s1 & -> & Hcfg).
    apply IH. congruence.
Qed.

(** [process_directory], by the outcome of [os.makedirs] and of the
    loop. *)
Lemma process_directory_eq (root : string) (s : State W) :
  process_directory root s =
  let cfg := config (self_ s) in
  let e0 := add_log INFO
              ("Starting batch processing of directory: " ++ root) (env s) in
  match plat_makedirs (world e0) (output_dir cfg) with
  | (Raise x, w1) =>
      (Raise x,
       mkState (mkImageProcessor cfg 0 0 0)
               (set_world w1 (emit (EvMakedirs (output_dir cfg)) e0)))
  | (Ok _, w1) =>
      let e1 := set_world w1 (emit (EvMakedirs (output_dir cfg)) e0) in
      let image_files := collect_image_files cfg (plat_walk w1 root) in
      let e2 :=
        add_log INFO
          ("Found " ++ Py.str_int (Z.of_nat (List.length image_files)) ++
           " image files to process") (emit (EvWalk root) e1) in
      match for_each process_single_image image_files
              (mkState (mkImageProcessor cfg 0 0 0) e2) with
      | (Raise x, s3) => (Raise x, s3)
      | (Ok _, s3) =>
          let stats :=
            mkStats (processed_count (self_ s3)) (skipped_count (self_ s3))
                    (error_count (self_ s3))
                    (Z.of_nat (List.length image_files)) in
          (Ok stats,
           mkState (self_ s3)
             (add_log INFO
                ("Processing complete. Processed: " ++
                 Py.str_int (processed stats) ++
                 ", Skipped: " ++ Py.str_int (skipped stats) ++
                 ", Errors: " ++ Py.str_int (errors stats)) (env s3)))
      end
  end.
Proof.
  unfold process_directory, bind, io, upd_processed_count, upd_skipped_count,
    upd_error_count, bind, get_self, set_self, logger_info, logger, os_makedirs,
    os_walk, ret, add_log. simpl.
  destruct (plat_makedirs (world (env s)) (output_dir (config (self_ s))))
    as [[[]|x] w1]; simpl; [|reflexivity].
  destruct (for_each _ _ _) as [[[]|x] s3]; reflexivity.
Qed.

(** What [process_directory] returns, when it returns.  It starts
    from zeroed counters, whatever they held before.  Every call of
    [process_single_image] that returns has raised exactly one of the
    three counters by one; a call that raises has changed none.  So
    the statistics returned have [total] equal to the number of walked
    file names that pass the extension check, and
    [total = processed + skipped + errors].  With caching disabled the
    batch returns whenever the output directory can be created. *)
Theorem process_directory_stats :
  (forall (cfg : Config) (a b c : Z) (e : Env W) (root : string),
     process_directory root (mkState (mkImageProcessor cfg a b c) e) =
     process_directory root (mkState (mkImageProcessor cfg 0 0 0) e))
  /\
  (forall (p : string) (s : State W) r s',
     process_single_image p s = (r, s') ->
     match r with
     | Ok _ => one_counter_incremented (self_ s) (self_ s')
     | Raise _ => self_ s' = self_ s
     end)
  /\
  (forall (root : string) (s : State W) (stats : Stats) (s' : State W),
     process_directory root s = (Ok stats, s') ->
     exists w1,
       plat_makedirs (world (env s)) (output_dir (config (self_ s))) =
         (Ok tt, w1) /\
       total stats =
         Z.of_nat (List.length
                     (filter (is_valid_image_format (config (self_ s)))
                             (flat_map snd (plat_walk w1 root)))) /\
       total stats = processed stats + skipped stats + errors stats /\
       processed stats = processed_count (self_ s') /\
       skipped stats = skipped_count (self_ s') /\
       errors stats = error_count (self_ s'))
  /\
  (forall (root : string) (s : State W),
     enable_caching (config (self_ s)) = false ->
     fst (plat_makedirs (world (env s)) (output_dir (config (self_ s)))) =
       Ok tt ->
     exists stats s', process_directory root s = (Ok stats, s')).
Proof.
  split; [|split; [|split]].
  - intros. rewrite !process_directory_eq. reflexivity.
  - intros p s r s'. apply process_single_image_counts.
  - intros root s stats s' H. rewrite process_directory_eq in H. cbv zeta in H.
    simpl in H.
    destruct (plat_makedirs (world (env s)) (output_dir (config (self_ s))))
      as [[[]|x] w1]; [|discriminate].
    destruct (for_each _ _ _) as [[[]|x] s3] eqn:Eloop; [|discriminate].
    apply for_each_counts in Eloop. destruct Eloop as [_ Hsum].
    unfold counted in Hsum. simpl in Hsum.
    inversion H; subst; clear H. simpl.
    exists w1. rewrite collect_length in *. repeat split; try reflexivity. lia.
  - intros root s Hc Hmk. rewrite process_directory_eq. cbv zeta. simpl.
    destruct (plat_makedirs (world (env s)) (output_dir (config (self_ s))))
      as [[[]|x] w1]; [|discriminate].
    match goal with
    | |- context [for_each process_single_image ?l ?s0] =>
        destruct (for_each_returns l s0 Hc) as [s3 ->]
    end.
    eauto.
Qed.

(** A failure inside validation or inside the transform is isolated.
    In the loop of [process_directory], a file whose cache lookup
    answered false and that fails validation, or passes validation and
    fails the transform, makes [process_single_image] return false with
    the error count one higher and the other counters unchanged, and
    the loop goes on with the remaining files from that state. *)
Theorem failing_file_does_not_abort_batch
    (f : string) (rest : list string) (s : State W) (e1 : Env W) :
  is_cached (self_ s) f (env s) = (Ok false, e1) ->
  validation_or_transform_fails (self_ s) f e1 ->
  exists s1,
    process_single_image f s = (Ok false, s1) /\
    error_count (self_ s1) = error_count (self_ s) + 1 /\
    processed_count (self_ s1) = processed_count (self_ s) /\
    skipped_count (self_ s1) = skipped_count (self_ s) /\
    for_each process_single_image (f :: rest) s =
      for_each process_single_image rest s1.
Proof.
  intros Hc Hfail. unfold validation_or_transform_fails in Hfail.
  assert (exists s1, process_single_image f s = (Ok false, s1) /\
                     self_ s1 = bump_error (self_ s)) as (s1 & Hrun & Hself).
  { rewrite process_single_image_eq. cbv zeta. rewrite Hc.
    destruct (validate_image (self_ s) f e1) as [[[[[|] msg] nb]|x] e2];
      [| eauto | contradiction].
    destruct (process_image _ _ _ _ _) as [[ok|x] e3]; simpl in Hfail;
      [|discriminate].
    injection Hfail as ->. eauto. }
  exists s1. rewrite Hself. repeat split; try reflexivity; try exact Hrun.
  simpl. unfold bind. rewrite Hrun. reflexivity.
Qed.

End Batch.

(** ** The theorems on concrete inputs *)

(** [in/exact.png] is exactly 600 pixels wide under a minimum of 600:
    it is valid and gets no borders. *)
Lemma validate_image_needs_borders_witness :
  fst (validate_image (ImageProcessor_init Demo.cfg) "in/exact.png"
         (env (Demo.start Demo.cfg))) =
    Ok (true, "", 600 <? 600)
  /\ (600 = 600 ->
      fst (validate_image (ImageProcessor_init Demo.cfg) "in/exact.png"
             (env (Demo.start Demo.cfg))) = Ok (true, "", false)).
Proof.
  apply (validate_image_needs_borders (ImageProcessor_init Demo.cfg)
           "in/exact.png" (env (Demo.start Demo.cfg))
           (mkStat 6 2000) (Demo.white 600 300));
    first [reflexivity | simpl; lia].
Defined.

Example validate_narrow_needs_borders :
  fst (validate_image (ImageProcessor_init Demo.cfg) "in/narrow.jpg"
         (env (Demo.start Demo.cfg))) = Ok (true, "", true).
Proof. vm_compute. reflexivity. Qed.

Example validate_reports_size_and_limit :
  fst (validate_image (ImageProcessor_init Demo.cfg) "in/huge.jpg"
         (env (Demo.start Demo.cfg))) =
    Ok (false, "File too large (10.5MB). Maximum allowed: 10MB", false).
Proof. vm_compute. reflexivity. Qed.

Example validate_extension_first :
  validate_image (ImageProcessor_init Demo.cfg) "in/missing.txt"
    (env (Demo.start Demo.cfg)) =
    (Ok (false,
         "Invalid image extension. Supported formats are .jpg, .jpeg, .png",
         false),
     env (Demo.start Demo.cfg)).
Proof. vm_compute. reflexivity. Qed.

(** A missing file with caching enabled: the exception of [os.stat]
    leaves [process_single_image], the processor untouched. *)
Lemma stat_failure_escapes_witness :
  process_single_image "in/missing.jpg" (Demo.start Demo.cfg) =
    (Raise "[Errno 2] No such file or directory: 'in/missing.jpg'",
     mkState (self_ (Demo.start Demo.cfg))
             (emit (EvStat "in/missing.jpg") (env (Demo.start Demo.cfg)))).
Proof.
  apply (proj1 (stat_failure_escapes_process_single_image
                  "in/missing.jpg" (Demo.start Demo.cfg)));
    reflexivity.
Defined.

Example missing_file_uncached_is_counted :
  let r := process_single_image "in/missing.jpg" (Demo.start Demo.cfg_uncached) in
  fst r = Ok false /\
  error_count (self_ (snd r)) = 1 /\
  log (env (snd r)) =
    [(WARNING, "Invalid image in/missing.jpg: File does not exist")].
Proof. vm_compute. repeat split. Qed.

Example not_cached_before_processing :
  fst (is_cached (ImageProcessor_init Demo.cfg) "in/narrow.jpg"
         (env (Demo.start Demo.cfg))) = Ok false.
Proof. vm_compute. reflexivity. Qed.

(** Processing [in/narrow.jpg] a second time: the marker written by the
    first run is found and the file is skipped. *)
Lemma cached_file_is_skipped_witness :
  fst (is_cached (self_ Demo.after_narrow) "in/narrow.jpg"
         (env Demo.after_narrow)) = Ok true /\
  exists st,
    plat_stat (world (env Demo.after_narrow)) "in/narrow.jpg" = Ok st /\
    process_single_image "in/narrow.jpg" Demo.after_narrow =
      (Ok true,
       mkState
         (mkImageProcessor (config (self_ Demo.after_narrow))
            (processed_count (self_ Demo.after_narrow))
            (skipped_count (self_ Demo.after_narrow) + 1)
            (error_count (self_ Demo.after_narrow)))
         (mkEnv (world (env Demo.after_narrow))
            (log (env Demo.after_narrow) ++
               [(INFO, "Skipping cached file: " ++ "in/narrow.jpg")])
            (trace (env Demo.after_narrow) ++
               [EvStat "in/narrow.jpg";
                EvStat (marker_file (config (self_ Demo.after_narrow))
                          (cache_key_of "in/narrow.jpg" st))]))).
Proof.
  split; [vm_compute; reflexivity|].
  apply (cached_file_is_skipped "in/narrow.jpg" Demo.after_narrow).
  vm_compute. reflexivity.
Defined.

(** The directory of [Demo.host]: four of the five files pass the
    extension check; two are processed, two are rejected. *)
Lemma process_directory_stats_witness :
  fst (process_directory "in" (Demo.start Demo.cfg)) = Ok (mkStats 2 0 2 4) /\
  exists w1,
    plat_makedirs (world (env (Demo.start Demo.cfg)))
      (output_dir (config (self_ (Demo.start Demo.cfg)))) = (Ok tt, w1) /\
    total (mkStats 2 0 2 4) =
      Z.of_nat (List.length
                  (filter (is_valid_image_format
                             (config (self_ (Demo.start Demo.cfg))))
                          (flat_map snd (plat_walk w1 "in")))) /\
    total (mkStats 2 0 2 4) =
      processed (mkStats 2 0 2 4) + skipped (mkStats 2 0 2 4) +
      errors (mkStats 2 0 2 4) /\
    processed (mkStats 2 0 2 4) =
      processed_count
        (self_ (snd (process_directory "in" (Demo.start Demo.cfg)))) /\
    skipped (mkStats 2 0 2 4) =
      skipped_count
        (self_ (snd (process_directory "in" (Demo.start Demo.cfg)))) /\
    errors (mkStats 2 0 2 4) =
      error_count
        (self_ (snd (process_directory "in" (Demo.start Demo.cfg)))).
Proof.
  split; [vm_compute; reflexivity|].
  apply (proj1 (proj2 (proj2 (@process_directory_stats Sim.host Sim.platform)))
           "in" (Demo.start Demo.cfg) (mkStats 2 0 2 4)
           (snd (process_directory "in" (Demo.start Demo.cfg)))).
  vm_compute. reflexivity.
Defined.

(** [in/bad.png] does not decode; the loop goes on with
    [in/exact.png]. *)
Lemma failing_file_does_not_abort_batch_witness :
  is_cached (self_ (Demo.start Demo.cfg_uncached)) "in/bad.png"
    (env (Demo.start Demo.cfg_uncached)) =
    (Ok false, env (Demo.start Demo.cfg_uncached)) /\
  validation_or_transform_fails (self_ (Demo.start Demo.cfg_uncached))
    "in/bad.png" (env (Demo.start Demo.cfg_uncached)) /\
  exists s1,
    process_single_image "in/bad.png" (Demo.start Demo.cfg_uncached) =
      (Ok false, s1) /\
    error_count (self_ s1) =
      error_count (self_ (Demo.start Demo.cfg_uncached)) + 1 /\
    processed_count (self_ s1) =
      processed_count (self_ (Demo.start Demo.cfg_uncached)) /\
    skipped_count (self_ s1) =
      skipped_count (self_ (Demo.start Demo.cfg_uncached)) /\
    for_each process_single_image ["in/bad.png"; "in/exact.png"]
      (Demo.start Demo.cfg_uncached) =
      for_each process_single_image ["in/exact.png"] s1.
Proof.
  split; [reflexivity|]. split; [vm_compute; exact I|].
  apply (failing_file_does_not_abort_batch "in/bad.png" ["in/exact.png"]
           (Demo.start Demo.cfg_uncached)
           (env (Demo.start Demo.cfg_uncached))).
  - reflexivity.
  - vm_compute. exact I.
Defined.

Example batch_with_failures_completes :
  fst (for_each process_single_image
         ["in/bad.png"; "in/huge.jpg"; "in/exact.png"]
         (Demo.start Demo.cfg)) = Ok tt /\
  self_ (snd (for_each process_single_image
                ["in/bad.png"; "in/huge.jpg"; "in/exact.png"]
                (Demo.start Demo.cfg))) =
    mkImageProcessor Demo.cfg 1 0 2.
Proof. vm_compute. split; reflexivity. Qed.

(** * Further properties *)

(** ** Validation, continued *)

Section ValidationMore.
Context {W : Type} {P : Platform W}.

(** [validate_image] never raises, never changes the world, and every
    access it makes is an [os.stat], an [Image.open] or a [verify] of
    the path it was given. *)
Theorem validate_image_read_only
    (self : ImageProcessor) (p : string) (e : Env W) r e' :
  validate_image self p e = (r, e') ->
  (exists v, r = Ok v) /\
  world e' = world e /\
  exists t,
    trace e' = (trace e ++ t)%list /\
    Forall (fun ev => ev = EvStat p \/ ev = EvImageOpen p \/
                      ev = EvImageVerify p) t.
Proof.
  rewrite validate_image_eq. cbv zeta.
  destruct (negb _).
  { intros [= <- <-]. split; [eauto|]. split; [reflexivity|].
    exists []. split; [now rewrite app_nil_r | constructor]. }
  destruct (plat_stat _ _) as [st|x].
  2:{ intros [= <- <-]. split; [eauto|]. split; [reflexivity|].
      exists [EvStat p]. split; [reflexivity | repeat (apply Forall_cons; [auto|]); apply Forall_nil]. }
  destruct (_ <? _).
  { intros [= <- <-]. split; [eauto|]. split; [reflexivity|].
    exists [EvStat p; EvStat p]. split.
    - simpl. now rewrite <- app_assoc.
    - repeat (apply Forall_cons; [auto|]); apply Forall_nil. }
  destruct (pil_open _ _) as [img|x].
  2:{ intros [= <- <-]. split; [eauto|]. split; [reflexivity|].
      exists [EvStat p; EvStat p; EvImageOpen p]. split.
      - simpl. now rewrite <- !app_assoc.
      - repeat (apply Forall_cons; [auto|]); apply Forall_nil. }
  assert (Htr : forall e4 : Env W,
            trace e4 =
              (trace e ++ [EvStat p; EvStat p; EvImageOpen p; EvImageVerify p])%list ->
            exists t,
              trace e4 = (trace e ++ t)%list /\
              Forall (fun ev => ev = EvStat p \/ ev = EvImageOpen p \/
                                ev = EvImageVerify p) t).
  { intros e4 H4. eexists. split; [exact H4|]. repeat (apply Forall_cons; [auto|]); apply Forall_nil. }
  destruct (pil_verify _ _ _) as [[]|x].
  - destruct (_ <? _); intros [= <- <-]; (split; [eauto|]);
      (split; [reflexivity|]); apply Htr; simpl; now rewrite <- !app_assoc.
  - intros [= <- <-]. split; [eauto|]. split; [reflexivity|].
    apply Htr. simpl. now rewrite <- !app_assoc.
Qed.

(** The triple [validate_image] returns is well formed: the message
    is empty exactly when the file is valid, and borders are asked for
    only for a valid file whose decoded width is below the minimum. *)
Theorem validate_image_verdict
    (self : ImageProcessor) (p : string) (e : Env W)
    (valid : bool) (msg : string) (needs_borders : bool) e' :
  validate_image self p e = (Ok (valid, msg, needs_borders), e') ->
  (valid = true <-> msg = "") /\
  (needs_borders = true ->
   valid = true /\
   exists img, pil_open (world e) p = Ok img /\
               fst (size img) < min_width (config self)).
Proof.
  rewrite validate_image_eq. cbv zeta.
  destruct (negb _).
  { intros [= <- <- <- _]. split; [split; simpl; discriminate | discriminate]. }
  destruct (plat_stat _ _) as [st|x].
  2:{ intros [= <- <- <- _]. split; [split; simpl; discriminate | discriminate]. }
  destruct (_ <? _).
  { intros [= <- <- <- _]. split; [split; simpl; discriminate | discriminate]. }
  destruct (pil_open _ _) as [img|x].
  2:{ intros [= <- <- <- _]. split; [split; simpl; discriminate | discriminate]. }
  destruct (pil_verify _ _ _) as [[]|x].
  2:{ intros [= <- <- <- _]. split; [split; simpl; discriminate | discriminate]. }
  intros [= <- <- <- _]. split; [split; reflexivity|].
  intros Hnb. split; [reflexivity|]. exists img. split; [reflexivity|].
  apply Z.ltb_lt. exact Hnb.
Qed.

End ValidationMore.

(** ** The transform *)

Section Transform.
Context {W : Type} {P : Platform W}.

(** The colour normalisation works on the image alone. *)
Lemma to_rgb_env (img : Image) (e : Env W) :
  snd (to_rgb img e) = e.
Proof.
  unfold to_rgb.
  destruct (existsb _ _).
  - unfold bind, of_result, ret, raise.
    destruct (Image_new _ _ _) as [bg|x]; [|reflexivity]. simpl.
    destruct (String.eqb (mode img) "P").
    + destruct (pil_convert img "RGBA") as [img1|x]; [|reflexivity]. simpl.
      destruct (String.eqb (mode img1) "RGBA"); [|reflexivity].
      destruct (pil_split img1) as [bands|x]; [|reflexivity]. simpl.
      destruct (rev bands); reflexivity.
    + simpl. destruct (String.eqb (mode img) "RGBA"); [|reflexivity].
      destruct (pil_split img) as [bands|x]; [|reflexivity]. simpl.
      destruct (rev bands); reflexivity.
  - destruct (negb _); reflexivity.
Qed.

Lemma to_rgb_rgb (img : Image) (e : Env W) :
  mode img = "RGB" -> to_rgb img e = (Ok img, e).
Proof. intros H. unfold to_rgb. rewrite H. reflexivity. Qed.

(** [process_image], by the outcome of each step: the image prepared
    for saving depends on the opened image alone. *)
Lemma process_image_eq
    (self : ImageProcessor) (i o : string) (b : bool) (e : Env W) :
  process_image self i o b e =
  let e1 := emit (EvImageOpen i) e in
  let failed x e' :=
    (Ok false,
     add_log ERROR ("Error processing image " ++ i ++ ": " ++ x) e') in
  match pil_open (world e) i with
  | Raise x => failed x e1
  | Ok img =>
      match fst (to_rgb img e1) with
      | Raise x => failed x e1
      | Ok rgb =>
          match pil_exif_transpose rgb with
          | Raise x => failed x e1
          | Ok upright =>
              match (if b then _add_dark_borders self upright
                     else Ok upright) with
              | Raise x => failed x e1
              | Ok out =>
                  let e2 := emit (EvImageSave o) e1 in
                  match pil_save_jpeg (world e) out o (quality (config self))
                  with
                  | (Raise x, w) => failed x (set_world w e2)
                  | (Ok _, w) => (Ok true, set_world w e2)
                  end
              end
          end
      end
  end.
Proof.
  unfold process_image, try_except. cbv zeta.
  unfold bind at 1. unfold Image_open at 1.
  destruct (pil_open (world e) i) as [img|x]; [|reflexivity].
  unfold bind at 1.
  pose proof (to_rgb_env img (emit (EvImageOpen i) e)) as Henv.
  destruct (to_rgb img (emit (EvImageOpen i) e)) as [[rgb|x] e1'].
  2:{ simpl in Henv. subst e1'. reflexivity. }
  simpl in Henv. subst e1'. simpl.
  unfold bind at 1. unfold of_result at 1.
  destruct (pil_exif_transpose rgb) as [upright|x]; [|reflexivity].
  unfold bind at 1.
  assert (Hb : (if b then of_result (_add_dark_borders self upright)
                else ret upright) (emit (EvImageOpen i) e) =
               (if b then _add_dark_borders self upright else Ok upright,
                emit (EvImageOpen i) e)).
  { destruct b; reflexivity. }
  rewrite Hb.
  destruct (if b then _add_dark_borders self upright else Ok upright)
    as [out|x]; [|reflexivity].
  unfold bind, Image_save, ret. simpl.
  destruct (pil_save_jpeg (world e) out o (quality (config self)))
    as [[[]|x] w]; reflexivity.
Qed.

(** The normalisation gives the same image in every environment. *)
Lemma to_rgb_fst (img : Image) (e e' : Env W) :
  fst (to_rgb img e) = fst (to_rgb img e').
Proof.
  unfold to_rgb.
  destruct (existsb _ _).
  - unfold bind, of_result, ret, raise.
    destruct (Image_new _ _ _) as [bg|x]; [|reflexivity]. simpl.
    destruct (String.eqb (mode img) "P").
    + destruct (pil_convert img "RGBA") as [img1|x]; [|reflexivity]. simpl.
      destruct (String.eqb (mode img1) "RGBA"); [|reflexivity].
      destruct (pil_split img1) as [bands|x]; [|reflexivity]. simpl.
      destruct (rev bands); reflexivity.
    + simpl. destruct (String.eqb (mode img) "RGBA"); [|reflexivity].
      destruct (pil_split img) as [bands|x]; [|reflexivity]. simpl.
      destruct (rev bands); reflexivity.
  - destruct (negb _); reflexivity.
Qed.

(** [process_image] in terms of the prepared image. *)
Lemma process_image_prepared
    (self : ImageProcessor) (i o : string) (b : bool) (e : Env W) :
  process_image self i o b e =
  let e1 := emit (EvImageOpen i) e in
  let failed x e' :=
    (Ok false,
     add_log ERROR ("Error processing image " ++ i ++ ": " ++ x) e') in
  match pil_open (world e) i with
  | Raise x => failed x e1
  | Ok img =>
      match prepared_image self b img e with
      | Raise x => failed x e1
      | Ok out =>
          let e2 := emit (EvImageSave o) e1 in
          match pil_save_jpeg (world e) out o (quality (config self)) with
          | (Raise x, w) => failed x (set_world w e2)
          | (Ok _, w) => (Ok true, set_world w e2)
          end
      end
  end.
Proof.
  rewrite process_image_eq. cbv zeta. unfold prepared_image.
  destruct (pil_open (world e) i) as [img|x]; [|reflexivity].
  rewrite (to_rgb_fst img (emit (EvImageOpen i) e) e).
  destruct (fst (to_rgb img e)) as [rgb|x]; [|reflexivity].
  destruct (pil_exif_transpose rgb) as [upright|x]; [|reflexivity].
  reflexivity.
Qed.

(** [process_image] always returns a boolean, and the record it logs
    carries the text of the exception that stopped it.  When
    [Image.open] raises [x], when the preparation of the image
    (conversion, transposition, borders) raises [x], or when the save
    raises [x], it returns false and adds exactly the ERROR record
    "Error processing image {input_path}: {x}"; when every step
    succeeds it returns true and logs nothing. *)
Theorem process_image_reports_failure
    (self : ImageProcessor) (i o : string) (b : bool) (e : Env W) :
  (forall x,
     pil_open (world e) i = Raise x ->
     fst (process_image self i o b e) = Ok false /\
     log (snd (process_image self i o b e)) =
       (log e ++
        [(ERROR, ("Error processing image " ++ i ++ ": " ++ x)%string)])%list)
  /\
  (forall img x,
     pil_open (world e) i = Ok img ->
     prepared_image self b img e = Raise x ->
     fst (process_image self i o b e) = Ok false /\
     log (snd (process_image self i o b e)) =
       (log e ++
        [(ERROR, ("Error processing image " ++ i ++ ": " ++ x)%string)])%list)
  /\
  (forall img out x w,
     pil_open (world e) i = Ok img ->
     prepared_image self b img e = Ok out ->
     pil_save_jpeg (world e) out o (quality (config self)) = (Raise x, w) ->
     fst (process_image self i o b e) = Ok false /\
     log (snd (process_image self i o b e)) =
       (log e ++
        [(ERROR, ("Error processing image " ++ i ++ ": " ++ x)%string)])%list)
  /\
  (forall img out w,
     pil_open (world e) i = Ok img ->
     prepared_image self b img e = Ok out ->
     pil_save_jpeg (world e) out o (quality (config self)) = (Ok tt, w) ->
     fst (process_image self i o b e) = Ok true /\
     log (snd (process_image self i o b e)) = log e).
Proof.
  rewrite process_image_prepared. cbv zeta.
  split; [|split; [|split]].
  - intros x Hopen. rewrite Hopen. split; reflexivity.
  - intros img x Hopen Hprep. rewrite Hopen, Hprep. split; reflexivity.
  - intros img out x w Hopen Hprep Hsave. rewrite Hopen, Hprep, Hsave.
    split; reflexivity.
  - intros img out w Hopen Hprep Hsave. rewrite Hopen, Hprep, Hsave.
    split; reflexivity.
Qed.

(** [process_image] opens the input path once and writes at most once.
    Either it does not reach the save, because [Image.open] or the
    preparation of the image raised: then the only access is the open,
    the world is as before and it returns false.  Or the open and the
    whole preparation succeeded: then the prepared image, and no other,
    is saved at the output path with the configured quality, the world
    is the one that save leaves, and it returns whether the save
    succeeded. *)
Theorem process_image_touches_only_its_paths
    (self : ImageProcessor) (i o : string) (b : bool) (e : Env W) r e' :
  process_image self i o b e = (r, e') ->
  (trace e' = (trace e ++ [EvImageOpen i])%list /\
   world e' = world e /\ r = Ok false /\
   ((exists x, pil_open (world e) i = Raise x) \/
    (exists img x, pil_open (world e) i = Ok img /\
                   prepared_image self b img e = Raise x)))
  \/
  (exists img out,
     pil_open (world e) i = Ok img /\
     prepared_image self b img e = Ok out /\
     trace e' = (trace e ++ [EvImageOpen i; EvImageSave o])%list /\
     world e' =
       snd (pil_save_jpeg (world e) out o (quality (config self))) /\
     r = Ok (match fst (pil_save_jpeg (world e) out o (quality (config self)))
             with Ok _ => true | Raise _ => false end)).
Proof.
  rewrite process_image_prepared. cbv zeta.
  destruct (pil_open _ _) as [img|x].
  2:{ intros [= <- <-]. left. repeat split. left. eauto. }
  destruct (prepared_image _ _ _ _) as [out|x] eqn:Eprep.
  2:{ intros [= <- <-]. left. repeat split. right. eauto. }
  destruct (pil_save_jpeg _ _ _ _) as [[[]|x] w] eqn:Esave;
    intros [= <- <-]; right; exists img, out;
    (split; [reflexivity|]); (split; [exact Eprep|]);
    (split; [simpl; now rewrite <- app_assoc|]);
    rewrite Esave; split; reflexivity.
Qed.

(** For an RGB image whose width after EXIF transposition already
    meets the minimum, [add_borders] makes no difference: the image is
    saved as it is. *)
Theorem process_image_wide_ignores_add_borders
    (self : ImageProcessor) (i o : string) (e : Env W)
    (img upright : Image) :
  pil_open (world e) i = Ok img ->
  mode img = "RGB" ->
  pil_exif_transpose img = Ok upright ->
  min_width (config self) <= fst (size upright) ->
  process_image self i o true e = process_image self i o false e /\
  trace (snd (process_image self i o true e)) =
    (trace e ++ [EvImageOpen i; EvImageSave o])%list /\
  world (snd (process_image self i o true e)) =
    snd (pil_save_jpeg (world e) upright o (quality (config self))).
Proof.
  intros Hopen Hmode Hexif Hwide.
  assert (Hb : _add_dark_borders self upright = Ok upright).
  { unfold _add_dark_borders. destruct (size upright) as [w h]. simpl in Hwide.
    replace (min_width (config self) <=? w) with true
      by (symmetry; apply Z.leb_le; exact Hwide).
    reflexivity. }
  rewrite !process_image_eq. cbv zeta.
  rewrite Hopen, (to_rgb_rgb _ _ Hmode). simpl. rewrite Hexif, Hb.
  split; [reflexivity|].
  destruct (pil_save_jpeg _ _ _ _) as [[[]|x] w]; simpl;
    (split; [now rewrite <- app_assoc | reflexivity]).
Qed.

End Transform.

(** ** The marker cache, continued *)

Section CacheMore.
Context {W : Type} {P : Platform W}.

(** [mark_as_cached], by the outcome of each call it makes. *)
Lemma mark_as_cached_eq (self : ImageProcessor) (p : string) (e : Env W) :
  mark_as_cached self p e =
  if negb (enable_caching (config self)) then (Ok tt, e)
  else
    let cd := cache_dir (config self) in
    let e1 := emit (EvStat p) e in
    match plat_stat (world e) p with
    | Raise x => (Raise x, e1)
    | Ok st =>
        let marker := marker_file (config self) (cache_key_of p st) in
        let e2 := emit (EvMakedirs cd) e1 in
        match plat_makedirs (world e) cd with
        | (Raise x, w1) => (Raise x, set_world w1 e2)
        | (Ok _, w1) =>
            let e3 := emit (EvOpenWrite marker) e2 in
            match plat_open_w w1 marker with
            | (Raise x, w2) => (Raise x, set_world w2 e3)
            | (Ok _, w2) =>
                let e4 := emit EvTime e3 in
                let (now, w3) := plat_time w2 in
                let e5 := emit (EvWrite marker) e4 in
                let (r, w4) :=
                  plat_write w3 marker
                    ("Processed: " ++ p ++ String "010" "Timestamp: " ++
                     str_float now) in
                (r, set_world w4 e5)
            end
        end
    end.
Proof.
  unfold mark_as_cached. destruct (enable_caching (config self)); simpl;
    [|reflexivity].
  unfold bind at 1. unfold get_cache_key, bind, os_stat, ret.
  destruct (plat_stat (world e) p) as [st|x]; [|reflexivity].
  fold (cache_key_of p st). fold (marker_file (config self) (cache_key_of p st)).
  unfold os_makedirs. simpl.
  destruct (plat_makedirs (world e) (cache_dir (config self))) as [[[]|x] w1];
    [|reflexivity].
  unfold open_w. simpl.
  destruct (plat_open_w w1 _) as [[[]|x] w2]; [|reflexivity].
  unfold time_time. simpl.
  destruct (plat_time w2) as [now w3]. unfold file_write. simpl.
  destruct (plat_write w3 _ _) as [r w4]. reflexivity.
Qed.

(** [is_cached] reads the world and leaves it as it is. *)
Lemma is_cached_world (self : ImageProcessor) (p : string) (e : Env W) :
  world (snd (is_cached self p e)) = world e.
Proof.
  rewrite is_cached_eq. destruct (negb _); [reflexivity|].
  destruct (plat_stat _ _); reflexivity.
Qed.

(** The answer of [is_cached] depends on the configuration and on the
    world only. *)
Lemma is_cached_depends (self self' : ImageProcessor) (p : string)
    (e e' : Env W) :
  config self' = config self -> world e' = world e ->
  fst (is_cached self' p e') = fst (is_cached self p e).
Proof.
  intros Hc Hw. rewrite !is_cached_eq, Hc, Hw.
  destruct (negb _); [reflexivity|].
  destruct (plat_stat _ _); reflexivity.
Qed.

(** After a successful [mark_as_cached], [is_cached] answers true. *)
Lemma marked_file_is_cached
    (self : ImageProcessor) (p : string) (e e' : Env W) :
  write_creates P ->
  keeps_stat P p ->
  enable_caching (config self) = true ->
  cache_dir (config self) <> p ->
  (forall st, marker_file (config self) (cache_key_of p st) <> p) ->
  mark_as_cached self p e = (Ok tt, e') ->
  fst (is_cached self p e') = Ok true.
Proof.
  intros Hwrite (Kmk & Kop & Kwr & Ktm) Hc Hcd Hmarker Hmark.
  rewrite mark_as_cached_eq, Hc in Hmark. simpl in Hmark.
  destruct (plat_stat (world e) p) as [st|x] eqn:Est; [|discriminate].
  destruct (plat_makedirs (world e) _) as [[[]|x] w1] eqn:Emk; [|discriminate].
  destruct (plat_open_w w1 _) as [[[]|x] w2] eqn:Eop; [|discriminate].
  destruct (plat_time w2) as [now w3] eqn:Etm.
  destruct (plat_write w3 _ _) as [r w4] eqn:Ewr.
  injection Hmark as -> <-.
  assert (Hst : plat_stat w4 p = Ok st).
  { rewrite (Kwr _ _ _ _ _ Ewr (Hmarker st)), (Ktm _ _ _ Etm),
      (Kop _ _ _ _ Eop (Hmarker st)), (Kmk _ _ _ _ Emk Hcd). exact Est. }
  rewrite is_cached_eq, Hc. simpl. rewrite Hst.
  simpl. f_equal. apply (Hwrite _ _ _ _ Ewr).
Qed.

(** Marking a file and looking it up agree on the marker: on a
    platform where a written file exists and where the cache
    operations leave the [os.stat] of the input as it is, a successful
    [mark_as_cached] is followed by [is_cached] answering true.  The
    calls made are, in order, the [os.stat] of the input, the creation
    of the cache directory, and the opening, time stamp and writing of
    the marker. *)
Theorem mark_then_is_cached
    (self : ImageProcessor) (p : string) (e e' : Env W) :
  write_creates P ->
  keeps_stat P p ->
  enable_caching (config self) = true ->
  cache_dir (config self) <> p ->
  (forall st, marker_file (config self) (cache_key_of p st) <> p) ->
  mark_as_cached self p e = (Ok tt, e') ->
  fst (is_cached self p e') = Ok true /\
  exists st,
    plat_stat (world e) p = Ok st /\
    trace e' =
      (trace e ++
       [EvStat p; EvMakedirs (cache_dir (config self));
        EvOpenWrite (marker_file (config self) (cache_key_of p st));
        EvTime;
        EvWrite (marker_file (config self) (cache_key_of p st))])%list.
Proof.
  intros Hwrite Hkeep Hc Hcd Hmarker Hmark.
  split; [eapply marked_file_is_cached; eassumption|].
  rewrite mark_as_cached_eq, Hc in Hmark. simpl in Hmark.
  destruct (plat_stat (world e) p) as [st|x] eqn:Est; [|discriminate].
  destruct (plat_makedirs (world e) _) as [[[]|x] w1]; [|discriminate].
  destruct (plat_open_w w1 _) as [[[]|x] w2]; [|discriminate].
  destruct (plat_time w2) as [now w3].
  destruct (plat_write w3 _ _) as [r w4].
  injection Hmark as _ <-.
  exists st. split; [reflexivity|]. simpl. now rewrite <- !app_assoc.
Qed.

(** Processing a file that was just processed or skipped is skipped:
    with caching enabled, after a call of [process_single_image] that
    returned true, a second call on the same path returns true, raises
    only the skipped count, and leaves the world as it is. *)
Theorem reprocessing_is_skipped (p : string) (s s1 : State W) :
  write_creates P ->
  keeps_stat P p ->
  enable_caching (config (self_ s)) = true ->
  cache_dir (config (self_ s)) <> p ->
  (forall st, marker_file (config (self_ s)) (cache_key_of p st) <> p) ->
  process_single_image p s = (Ok true, s1) ->
  exists s2,
    process_single_image p s1 = (Ok true, s2) /\
    processed_count (self_ s2) = processed_count (self_ s1) /\
    skipped_count (self_ s2) = skipped_count (self_ s1) + 1 /\
    error_count (self_ s2) = error_count (self_ s1) /\
    world (env s2) = world (env s1).
Proof.
  intros Hwrite Hkeep Hc Hcd Hmarker Hrun.
  assert (Hagain : fst (is_cached (self_ s1) p (env s1)) = Ok true).
  { rewrite process_single_image_eq in Hrun. cbv zeta in Hrun.
    destruct (is_cached (self_ s) p (env s)) as [[[|]|x] e1] eqn:Ecache;
      [| |discriminate].
    - injection Hrun as <-. simpl.
      rewrite (is_cached_depends (self_ s) _ p (env s)); [now rewrite Ecache| |].
      + reflexivity.
      + simpl. pose proof (is_cached_world (self_ s) p (env s)) as Hw.
        rewrite Ecache in Hw. exact Hw.
    - destruct (validate_image _ _ _) as [[[[[|] msg] nb]|x] e2];
        [| discriminate | discriminate].
      destruct (process_image _ _ _ _ _) as [[[|]|x] e3];
        [| discriminate | discriminate].
      destruct (mark_as_cached _ _ _) as [[[]|x] e4] eqn:Emark; [|discriminate].
      injection Hrun as <-. simpl.
      pose proof (marked_file_is_cached (self_ s) p e3 e4 Hwrite Hkeep Hc Hcd
                    Hmarker Emark) as Hyes.
      rewrite (is_cached_depends (self_ s) _ p e4); [exact Hyes| |];
        reflexivity. }
  rewrite process_single_image_eq. cbv zeta.
  pose proof (is_cached_world (self_ s1) p (env s1)) as Hw.
  destruct (is_cached (self_ s1) p (env s1)) as [[cached|x] e5];
    simpl in Hagain; [|discriminate].
  injection Hagain as ->. eexists. split; [reflexivity|].
  simpl. repeat split. exact Hw.
Qed.

End CacheMore.

(** ** Single files and batches, continued *)

Lemma lower_append (a b : string) :
  Py.lower (a ++ b) = Py.lower a ++ Py.lower b.
Proof. induction a as [|c a IH]; simpl; [reflexivity | now rewrite IH]. Qed.

Lemma ends_with_trans (s t u : string) :
  ends_with s t -> ends_with t u -> ends_with s u.
Proof.
  intros [p ->] [q ->]. exists (p ++ q). now rewrite append_assoc.
Qed.

Lemma for_each_app {S A B} (body : A -> M S B) (l1 l2 : list A) (s s1 : S) :
  for_each body l1 s = (Ok tt, s1) ->
  for_each body (l1 ++ l2) s = for_each body l2 s1.
Proof.
  revert s. induction l1 as [|a l1 IH]; intros s H.
  - inversion H; subst. reflexivity.
  - simpl in *. unfold bind in *.
    destruct (body a s) as [[b|x] s']; [|discriminate].
    apply IH. exact H.
Qed.

Section BatchMore.
Context {W : Type} {P : Platform W}.

(** Every path [process_directory] collects passes the extension check
    again as a full path, on a platform whose [os.path.join] keeps the
    file name at the end: the extension check of [validate_image]
    cannot fail inside a batch. *)
Theorem collected_files_pass_extension_check
    (cfg : Config) (walked : list (string * list string * list string))
    (p : string) :
  join_keeps_name P ->
  In p (collect_image_files cfg walked) ->
  is_valid_image_format cfg p = true.
Proof.
  intros Hjoin Hin. unfold collect_image_files in Hin.
  apply in_flat_map in Hin. destruct Hin as ([[root dirs] names] & _ & Hin).
  apply in_map_iff in Hin. destruct Hin as (name & <- & Hname).
  apply filter_In in Hname. destruct Hname as [_ Hvalid].
  unfold is_valid_image_format, Py.any in *.
  apply existsb_exists in Hvalid. destruct Hvalid as (ext & Hext & Hends).
  apply existsb_exists. exists ext. split; [exact Hext|].
  apply endswith_spec. apply endswith_spec in Hends.
  destruct (Hjoin root name) as [pre Hpre]. rewrite Hpre, lower_append.
  eapply ends_with_trans; [|exact Hends]. now exists (Py.lower pre).
Qed.

(** An exception leaves [process_single_image] only from the cache:
    caching is enabled, the counters are as before, and either the
    lookup raised, or the image was validated, transformed and saved
    and the marking raised. *)
Theorem process_single_image_raises_only_from_cache
    (p : string) (s : State W) (x : exn) (s' : State W) :
  process_single_image p s = (Raise x, s') ->
  enable_caching (config (self_ s)) = true /\
  self_ s' = self_ s /\
  (is_cached (self_ s) p (env s) = (Raise x, env s') \/
   exists e1 msg needs_borders e2 e3,
     is_cached (self_ s) p (env s) = (Ok false, e1) /\
     validate_image (self_ s) p e1 = (Ok (true, msg, needs_borders), e2) /\
     process_image (self_ s) p
       (derive_output_path (self_ s) p needs_borders) needs_borders e2 =
       (Ok true, e3) /\
     mark_as_cached (self_ s) p e3 = (Raise x, env s')).
Proof.
  intros Hrun.
  destruct (enable_caching (config (self_ s))) eqn:Hc.
  2:{ destruct (process_single_image_returns p s Hc) as (b & s2 & Hok & _).
      rewrite Hok in Hrun. discriminate. }
  split; [reflexivity|].
  rewrite process_single_image_eq in Hrun. cbv zeta in Hrun.
  destruct (is_cached (self_ s) p (env s)) as [[[|]|y] e1] eqn:Ecache.
  - discriminate.
  - destruct (validate_image_total (self_ s) p e1) as (v & e2 & Eval).
    rewrite Eval in *. destruct v as [[valid msg] nb].
    destruct valid; [|discriminate].
    destruct (process_image _ _ _ _ _) as [[[|]|y] e3] eqn:Eproc.
    + destruct (mark_as_cached _ _ _) as [[[]|y] e4] eqn:Emark;
        [discriminate|].
      injection Hrun as <- <-. split; [reflexivity|]. right.
      exists e1, msg, nb, e2, e3. repeat split; assumption.
    + discriminate.
    + destruct (process_image_total (self_ s) p
                  (derive_output_path (self_ s) p nb) nb e2) as (ok & e' & E).
      rewrite E in Eproc. discriminate.
  - injection Hrun as <- <-. split; [reflexivity|]. left. reflexivity.
Qed.

(** A file that validation rejects leaves the world as it is: nothing
    is written.  The call returns false, raises only the error count,
    and logs one warning that carries the message of the validation. *)
Theorem rejected_file_leaves_world
    (p : string) (s : State W) (e1 e2 : Env W) (msg : string) (nb : bool) :
  is_cached (self_ s) p (env s) = (Ok false, e1) ->
  validate_image (self_ s) p e1 = (Ok (false, msg, nb), e2) ->
  exists s',
    process_single_image p s = (Ok false, s') /\
    self_ s' = bump_error (self_ s) /\
    world (env s') = world (env s) /\
    log (env s') =
      (log (env s) ++
       [(WARNING, ("Invalid image " ++ p ++ ": " ++ msg)%string)])%list.
Proof.
  intros Ecache Eval.
  rewrite process_single_image_eq. cbv zeta. rewrite Ecache, Eval.
  eexists. split; [reflexivity|]. split; [reflexivity|].
  pose proof (is_cached_world (self_ s) p (env s)) as Hw1.
  pose proof (is_cached_log _ _ _ _ _ Ecache) as Hl1.
  rewrite Ecache in Hw1. simpl in Hw1.
  assert (Hlog1 : log e1 = log (env s)).
  { rewrite is_cached_eq in Ecache. destruct (negb _).
    - now injection Ecache as <-.
    - destruct (plat_stat _ _); [|discriminate].
      now injection Ecache as _ <-. }
  rewrite validate_image_eq in Eval. cbv zeta in Eval.
  assert (Hboth : world e2 = world e1 /\ log e2 = log e1).
  { destruct (negb _); [now injection Eval as _ _ <-|].
    destruct (plat_stat _ _); [|now injection Eval as _ _ <-].
    destruct (_ <? _); [now injection Eval as _ _ <-|].
    destruct (pil_open _ _); [|now injection Eval as _ _ <-].
    destruct (pil_verify _ _ _); [discriminate|].
    now injection Eval as _ _ <-. }
  destruct Hboth as [Hw2 Hl2]. simpl.
  split; [congruence|]. now rewrite Hl2, Hlog1.
Qed.

(** One file that cannot be stat-ed ends the batch when caching is
    enabled: after the files before it were handled, the exception of
    [os.stat] leaves [process_directory], no statistics are returned
    and the files after it are never looked at. *)
Theorem unstatable_file_aborts_batch
    (root : string) (s : State W) (w1 : W)
    (done_ : list string) (f : string) (rest : list string)
    (s_mid : State W) (x : exn) :
  enable_caching (config (self_ s)) = true ->
  plat_makedirs (world (env s)) (output_dir (config (self_ s))) =
    (Ok tt, w1) ->
  collect_image_files (config (self_ s)) (plat_walk w1 root) =
    (done_ ++ f :: rest)%list ->
  for_each process_single_image done_ (loop_start root s w1) =
    (Ok tt, s_mid) ->
  plat_stat (world (env s_mid)) f = Raise x ->
  process_directory root s =
    (Raise x, mkState (self_ s_mid) (emit (EvStat f) (env s_mid))).
Proof.
  intros Hc Hmk Hfiles Hdone Hstat.
  rewrite process_directory_eq. cbv zeta.
  change (world (add_log INFO _ (env s))) with (world (env s)).
  rewrite Hmk. unfold loop_start in Hdone. cbv zeta in Hdone.
  rewrite Hfiles in *. rewrite (for_each_app _ _ _ _ _ Hdone).
  simpl. unfold bind.
  apply for_each_counts in Hdone. destruct Hdone as [Hcfg _].
  rewrite process_single_image_eq. cbv zeta.
  rewrite is_cached_eq, Hcfg. simpl. rewrite Hc, Hstat. reflexivity.
Qed.

(** Claim C4.  The claim fails on a file that cannot be stat-ed when
    caching is enabled.  The call of [process_single_image] on it raises
    and changes no counter, so it is not true that every call raises
    one of them; [process_directory] then raises too and returns no
    statistics, the counters holding one count for each file handled
    before, fewer than the number of files found. *)
Theorem aborted_batch_counts_fall_short
    (root : string) (s : State W) (w1 : W)
    (done_ : list string) (f : string) (rest : list string)
    (s_mid : State W) (x : exn) :
  enable_caching (config (self_ s)) = true ->
  plat_makedirs (world (env s)) (output_dir (config (self_ s))) =
    (Ok tt, w1) ->
  collect_image_files (config (self_ s)) (plat_walk w1 root) =
    (done_ ++ f :: rest)%list ->
  for_each process_single_image done_ (loop_start root s w1) =
    (Ok tt, s_mid) ->
  plat_stat (world (env s_mid)) f = Raise x ->
  exists s',
    process_single_image f s_mid = (Raise x, s') /\
    self_ s' = self_ s_mid /\
    ~ one_counter_incremented (self_ s_mid) (self_ s') /\
    process_directory root s = (Raise x, s') /\
    counted (self_ s') = Z.of_nat (List.length done_) /\
    counted (self_ s') <
      Z.of_nat (List.length
                  (collect_image_files (config (self_ s)) (plat_walk w1 root))).
Proof.
  intros Hc Hmk Hfiles Hdone Hstat.
  pose proof (for_each_counts _ _ _ Hdone) as [Hcfg Hsum].
  assert (Hcall : process_single_image f s_mid =
                  (Raise x, mkState (self_ s_mid) (emit (EvStat f) (env s_mid)))).
  { rewrite process_single_image_eq. cbv zeta.
    rewrite is_cached_eq, Hcfg. simpl. rewrite Hc, Hstat. reflexivity. }
  eexists. split; [exact Hcall|]. split; [reflexivity|].
  split.
  { simpl. unfold one_counter_incremented. intros [_ H]. lia. }
  split.
  { rewrite process_directory_eq. cbv zeta.
    change (world (add_log INFO _ (env s))) with (world (env s)).
    rewrite Hmk. unfold loop_start in Hdone. cbv zeta in Hdone.
    rewrite Hfiles in *. rewrite (for_each_app _ _ _ _ _ Hdone).
    simpl. unfold bind. rewrite Hcall. reflexivity. }
  simpl. rewrite Hsum. unfold loop_start, counted. simpl.
  rewrite Hfiles, length_app. simpl. lia.
Qed.

Lemma for_each_errors_grow (l : list string) :
  forall (s s' : State W),
    for_each process_single_image l s = (Ok tt, s') ->
    error_count (self_ s) <= error_count (self_ s').
Proof.
  induction l as [|f rest IH]; intros s s' H.
  - inversion H; subst. lia.
  - simpl in H. unfold bind in H.
    destruct (process_single_image f s) as [[b|x] s1] eqn:E; [|discriminate].
    apply process_single_image_counts in E. destruct E as [_ Hone].
    apply IH in H. lia.
Qed.

(** Claim C7.  The claim fails on a file that cannot be stat-ed: a
    missing file is a validation failure ("File does not exist"), yet
    with caching enabled the batch does not survive it.  When the first
    file found cannot be stat-ed, [process_directory] raises the error
    of [os.stat]: the error count is still zero and none of the
    remaining files is looked at.  With caching disabled the same batch
    goes through: the file is counted as an error and every file found
    is accounted for. *)
Theorem unstatable_file_is_not_isolated
    (root : string) (s : State W) (w1 : W)
    (f : string) (rest : list string) (x : exn) :
  plat_makedirs (world (env s)) (output_dir (config (self_ s))) =
    (Ok tt, w1) ->
  collect_image_files (config (self_ s)) (plat_walk w1 root) = f :: rest ->
  plat_stat w1 f = Raise x ->
  (enable_caching (config (self_ s)) = true ->
   process_directory root s =
     (Raise x,
      mkState (mkImageProcessor (config (self_ s)) 0 0 0)
              (emit (EvStat f) (env (loop_start root s w1)))))
  /\
  (enable_caching (config (self_ s)) = false ->
   exists stats s',
     process_directory root s = (Ok stats, s') /\
     1 <= errors stats /\
     total stats = Z.of_nat (List.length (f :: rest)) /\
     total stats = processed stats + skipped stats + errors stats).
Proof.
  intros Hmk Hfiles Hstat. split; intros Hc.
  - rewrite process_directory_eq. cbv zeta.
    change (world (add_log INFO _ (env s))) with (world (env s)).
    rewrite Hmk. unfold loop_start. cbv zeta. rewrite Hfiles.
    simpl. unfold bind.
    rewrite process_single_image_eq. cbv zeta.
    rewrite is_cached_eq. simpl. rewrite Hc, Hstat. reflexivity.
  - rewrite process_directory_eq. cbv zeta.
    change (world (add_log INFO _ (env s))) with (world (env s)).
    rewrite Hmk, Hfiles.
    match goal with
    | |- context [for_each process_single_image (f :: rest) ?s0] =>
        set (s_loop := s0)
    end.
    assert (Hfirst : exists s1,
              process_single_image f s_loop = (Ok false, s1) /\
              config (self_ s1) = config (self_ s) /\
              error_count (self_ s1) = 1).
    { rewrite process_single_image_eq. cbv zeta.
      rewrite is_cached_eq. simpl. rewrite Hc. simpl.
      rewrite validate_image_eq. cbv zeta. simpl. rewrite Hstat.
      destruct (negb _); eexists; (split; [reflexivity|]);
        split; reflexivity. }
    destruct Hfirst as (s1 & Hrun & Hcfg1 & Herr1).
    destruct (for_each_returns rest s1) as [s3 Hrest];
      [now rewrite Hcfg1|].
    assert (Hloop : for_each process_single_image (f :: rest) s_loop =
                    (Ok tt, s3)).
    { simpl. unfold bind. rewrite Hrun. exact Hrest. }
    rewrite Hloop.
    pose proof (for_each_errors_grow _ _ _ Hrest) as Hgrow.
    pose proof (for_each_counts _ _ _ Hloop) as [_ Hsum].
    do 2 eexists. split; [reflexivity|]. simpl.
    unfold counted in Hsum. subst s_loop. simpl in Hsum.
    change (List.length (f :: rest)) with (S (List.length rest)) in *.
    repeat split; lia.
Qed.

(** A batch that finds no image: when no walked name passes the
    extension check, [process_directory] returns all four statistics
    at zero, having only created the output directory and walked the
    root. *)
Theorem empty_batch_returns_zero_stats
    (root : string) (s : State W) (w1 : W) :
  plat_makedirs (world (env s)) (output_dir (config (self_ s))) =
    (Ok tt, w1) ->
  collect_image_files (config (self_ s)) (plat_walk w1 root) = [] ->
  exists s',
    process_directory root s = (Ok (mkStats 0 0 0 0), s') /\
    world (env s') = w1 /\
    trace (env s') =
      (trace (env s) ++
       [EvMakedirs (output_dir (config (self_ s))); EvWalk root])%list.
Proof.
  intros Hmk Hnone.
  rewrite process_directory_eq. cbv zeta. simpl. rewrite Hmk, Hnone. simpl.
  eexists. split; [reflexivity|]. split; [reflexivity|].
  simpl. now rewrite <- app_assoc.
Qed.

(** When the output directory cannot be created, [process_directory]
    raises that error before walking: the counters are already reset
    to zero, and the only access made is the [os.makedirs]. *)
Theorem output_dir_failure_stops_batch
    (root : string) (s : State W) (x : exn) (w1 : W) :
  plat_makedirs (world (env s)) (output_dir (config (self_ s))) =
    (Raise x, w1) ->
  exists s',
    process_directory root s = (Raise x, s') /\
    self_ s' = mkImageProcessor (config (self_ s)) 0 0 0 /\
    world (env s') = w1 /\
    trace (env s') =
      (trace (env s) ++ [EvMakedirs (output_dir (config (self_ s)))])%list.
Proof.
  intros Hmk. rewrite process_directory_eq. cbv zeta. simpl. rewrite Hmk.
  eexists. repeat split.
Qed.

End BatchMore.

(** ** The border transform, continued *)

Section BordersMore.
Context {W : Type} {P : Platform W}.
Hypothesis Hresize : resize_spec P.

(** Whatever the width of an RGB image of positive size, the image
    [_add_dark_borders] returns meets the minimum width, and applying
    the transform to it again returns it unchanged. *)
Theorem add_dark_borders_meets_min_width
    (self : ImageProcessor) (img out : Image) :
  mode img = "RGB" ->
  0 < fst (size img) ->
  0 < snd (size img) ->
  _add_dark_borders self img = Ok out ->
  min_width (config self) <= fst (size out) /\
  _add_dark_borders self out = Ok out.
Proof.
  intros Hmode Hw Hh Hout.
  assert (Hfix : forall im, min_width (config self) <= fst (size im) ->
                            _add_dark_borders self im = Ok im).
  { intros im Him. unfold _add_dark_borders.
    destruct (size im) as [w h]. simpl in Him.
    replace (min_width (config self) <=? w) with true
      by (symmetry; apply Z.leb_le; exact Him).
    reflexivity. }
  destruct (Z_le_gt_dec (min_width (config self)) (fst (size img))) as [Hwide|Hnarrow].
  - rewrite (Hfix img Hwide) in Hout. injection Hout as <-.
    split; [exact Hwide | apply Hfix, Hwide].
  - destruct (add_dark_borders_narrow Hresize self img Hmode
                (conj Hw (Z.gt_lt _ _ Hnarrow)) Hh) as (r & _ & _ & Heq).
    rewrite Heq in Hout. injection Hout as <-.
    split; [simpl; lia | apply Hfix; simpl; lia].
Qed.

(** The border transform enlarges a narrow image and keeps its aspect
    ratio to within one pixel row: the output is wider, at least as
    high, and [min_width * height - new_height * width] lies in
    [0, width). *)
Theorem add_dark_borders_keeps_aspect_ratio
    (self : ImageProcessor) (img : Image) :
  mode img = "RGB" ->
  0 < fst (size img) < min_width (config self) ->
  0 < snd (size img) ->
  exists out,
    _add_dark_borders self img = Ok out /\
    fst (size img) < fst (size out) /\
    snd (size img) <= snd (size out) /\
    0 <= min_width (config self) * snd (size img) -
         snd (size out) * fst (size img) < fst (size img).
Proof.
  intros Hmode Hw Hh.
  destruct (add_dark_borders_narrow Hresize self img Hmode Hw Hh)
    as (r & _ & _ & Heq).
  eexists. split; [exact Heq|]. simpl.
  destruct (size img) as [w h]. simpl in *.
  pose proof (Z.div_mod (min_width (config self) * h) w ltac:(lia)) as Hdm.
  pose proof (Z.mod_pos_bound (min_width (config self) * h) w ltac:(lia)) as Hb.
  assert (h <= min_width (config self) * h / w)
    by (apply Z.div_le_lower_bound; nia).
  repeat split; nia.
Qed.

(** The file saved for a narrow image is exactly [min_width] wide: for
    an RGB image that is narrow after EXIF transposition,
    [process_image] with [add_borders] saves, at the output path, an
    image of size [(min_width, floor (min_width * height / width))]. *)
Theorem process_image_saves_at_min_width
    (self : ImageProcessor) (i o : string) (e : Env W)
    (img upright : Image) :
  pil_open (world e) i = Ok img ->
  mode img = "RGB" ->
  pil_exif_transpose img = Ok upright ->
  mode upright = "RGB" ->
  0 < fst (size upright) < min_width (config self) ->
  0 < snd (size upright) ->
  exists out,
    size out =
      (min_width (config self),
       (min_width (config self) * snd (size upright)) / fst (size upright)) /\
    world (snd (process_image self i o true e)) =
      snd (pil_save_jpeg (world e) out o (quality (config self))) /\
    trace (snd (process_image self i o true e)) =
      (trace e ++ [EvImageOpen i; EvImageSave o])%list.
Proof.
  intros Hopen Hmode Hexif Hmode' Hw Hh.
  destruct (add_dark_borders_narrow Hresize self upright Hmode' Hw Hh)
    as (r & _ & _ & Heq).
  match type of Heq with _ = Ok ?im => exists im end.
  split; [reflexivity|].
  rewrite process_image_eq. cbv zeta.
  rewrite Hopen, (to_rgb_rgb _ _ Hmode).
  cbn [fst]. rewrite Hexif, Heq.
  destruct (pil_save_jpeg _ _ _ _) as [[[]|x] w]; simpl;
    (split; [reflexivity | now rewrite <- app_assoc]).
Qed.

End BordersMore.

(** ** Directories *)

Section DirectoriesMore.
Context {W : Type} {P : Platform W}.

Lemma os_path_exists_eq (p : string) (e : Env W) :
  os_path_exists p e = (Ok (path_exists (world e) p), emit (EvStat p) e).
Proof.
  unfold os_path_exists, try_except, bind, os_stat, ret, path_exists.
  destruct (plat_stat (world e) p); reflexivity.
Qed.

(** [create_directories], by the outcome of each [os.makedirs]. *)
Lemma create_directories_eq (cfg : Config) (e : Env W) :
  create_directories cfg e =
  let e1 w := set_world w (emit (EvMakedirs (input_dir cfg)) e) in
  let e2 w v := set_world v (emit (EvMakedirs (output_dir cfg)) (e1 w)) in
  let e3 w v u := set_world u (emit (EvMakedirs (cache_dir cfg)) (e2 w v)) in
  match plat_makedirs (world e) (input_dir cfg) with
  | (Raise x, w1) => (Raise x, e1 w1)
  | (Ok _, w1) =>
      match plat_makedirs w1 (output_dir cfg) with
      | (Raise x, w2) => (Raise x, e2 w1 w2)
      | (Ok _, w2) =>
          if enable_caching cfg then
            match plat_makedirs w2 (cache_dir cfg) with
            | (Raise x, w3) => (Raise x, e3 w1 w2 w3)
            | (Ok _, w3) => (Ok tt, e3 w1 w2 w3)
            end
          else (Ok tt, e2 w1 w2)
      end
  end.
Proof.
  unfold create_directories. cbv zeta.
  destruct (enable_caching cfg); cbn [app for_each];
    unfold bind, os_makedirs, ret;
    destruct (plat_makedirs (world e) (input_dir cfg)) as [[[]|x] w1];
    try reflexivity; cbn [world set_world emit];
    destruct (plat_makedirs w1 (output_dir cfg)) as [[[]|x] w2];
    try reflexivity; cbn [world set_world emit].
  destruct (plat_makedirs w2 (cache_dir cfg)) as [[[]|x] w3]; reflexivity.
Qed.

Lemma input_dir_exists_after_create (cfg : Config) (e e' : Env W) :
  makedirs_spec P ->
  create_directories cfg e = (Ok tt, e') ->
  path_exists (world e') (input_dir cfg) = true.
Proof.
  intros [Hmake Hkeep] Hrun. rewrite create_directories_eq in Hrun.
  cbv zeta in Hrun.
  destruct (plat_makedirs (world e) _) as [[[]|x] w1] eqn:E1; [|discriminate].
  destruct (plat_makedirs w1 _) as [[[]|x] w2] eqn:E2; [|discriminate].
  pose proof (Hkeep _ _ _ _ _ E2 (Hmake _ _ _ E1)) as H12.
  destruct (enable_caching cfg).
  - destruct (plat_makedirs w2 _) as [[[]|x] w3] eqn:E3; [|discriminate].
    injection Hrun as <-. exact (Hkeep _ _ _ _ _ E3 H12).
  - injection Hrun as <-. exact H12.
Qed.

(** After [create_directories] has returned, the input and output
    directories exist, and so does the cache directory when caching is
    enabled, on a platform where [os.makedirs] creates what it is asked
    for and removes nothing. *)
Theorem create_directories_establishes (cfg : Config) (e e' : Env W) :
  makedirs_spec P ->
  create_directories cfg e = (Ok tt, e') ->
  path_exists (world e') (input_dir cfg) = true /\
  path_exists (world e') (output_dir cfg) = true /\
  (enable_caching cfg = true ->
   path_exists (world e') (cache_dir cfg) = true) /\
  log e' = log e.
Proof.
  intros [Hmake Hkeep] Hrun. rewrite create_directories_eq in Hrun.
  cbv zeta in Hrun.
  destruct (plat_makedirs (world e) _) as [[[]|x] w1] eqn:E1; [|discriminate].
  destruct (plat_makedirs w1 _) as [[[]|x] w2] eqn:E2; [|discriminate].
  pose proof (Hmake _ _ _ E1) as H1.
  pose proof (Hkeep _ _ _ _ _ E2 H1) as H12.
  pose proof (Hmake _ _ _ E2) as H2.
  destruct (enable_caching cfg).
  - destruct (plat_makedirs w2 _) as [[[]|x] w3] eqn:E3; [|discriminate].
    injection Hrun as <-. simpl. repeat split.
    + exact (Hkeep _ _ _ _ _ E3 H12).
    + exact (Hkeep _ _ _ _ _ E3 H2).
    + intros _. exact (Hmake _ _ _ E3).
  - injection Hrun as <-. simpl. repeat split; try assumption. discriminate.
Qed.

(** [create_directories] calls [os.makedirs] on the input directory,
    then on the output directory, then, with caching enabled only, on
    the cache directory, each in the world the call before left.  It
    stops at the first call that raises and propagates the exception of
    that very call: the directories after it are not attempted, and
    with caching disabled the cache directory never is. *)
Theorem create_directories_in_order (cfg : Config) (e : Env W) :
  (forall x w1,
     plat_makedirs (world e) (input_dir cfg) = (Raise x, w1) ->
     create_directories cfg e =
       (Raise x,
        mkEnv w1 (log e) (trace e ++ [EvMakedirs (input_dir cfg)])))
  /\
  (forall w1 x w2,
     plat_makedirs (world e) (input_dir cfg) = (Ok tt, w1) ->
     plat_makedirs w1 (output_dir cfg) = (Raise x, w2) ->
     create_directories cfg e =
       (Raise x,
        mkEnv w2 (log e)
          (trace e ++
           [EvMakedirs (input_dir cfg); EvMakedirs (output_dir cfg)])))
  /\
  (forall w1 w2,
     plat_makedirs (world e) (input_dir cfg) = (Ok tt, w1) ->
     plat_makedirs w1 (output_dir cfg) = (Ok tt, w2) ->
     enable_caching cfg = false ->
     create_directories cfg e =
       (Ok tt,
        mkEnv w2 (log e)
          (trace e ++
           [EvMakedirs (input_dir cfg); EvMakedirs (output_dir cfg)])))
  /\
  (forall w1 w2 r w3,
     plat_makedirs (world e) (input_dir cfg) = (Ok tt, w1) ->
     plat_makedirs w1 (output_dir cfg) = (Ok tt, w2) ->
     enable_caching cfg = true ->
     plat_makedirs w2 (cache_dir cfg) = (r, w3) ->
     create_directories cfg e =
       (r,
        mkEnv w3 (log e)
          (trace e ++
           [EvMakedirs (input_dir cfg); EvMakedirs (output_dir cfg);
            EvMakedirs (cache_dir cfg)]))).
Proof.
  rewrite create_directories_eq. cbv zeta.
  split; [|split; [|split]].
  - intros x w1 H1. rewrite H1. reflexivity.
  - intros w1 x w2 H1 H2. rewrite H1, H2.
    unfold set_world, emit. simpl. now rewrite <- app_assoc.
  - intros w1 w2 H1 H2 Hc. rewrite H1, H2, Hc.
    unfold set_world, emit. simpl. now rewrite <- app_assoc.
  - intros w1 w2 r w3 H1 H2 Hc H3. rewrite H1, H2, Hc, H3.
    destruct r as [[]|x]; unfold set_world, emit; simpl;
      now rewrite <- !app_assoc.
Qed.

End DirectoriesMore.

(** ** The script *)

Section Script.
Context {W : Type} {P : Platform W} {T : Terminal W}.

Lemma stdout_adds_refl ok (c : Console W) : stdout_adds ok c c.
Proof. exists []. split; [now rewrite app_nil_r | constructor]. Qed.

Lemma stdout_adds_trans ok (a b c : Console W) :
  stdout_adds ok a b -> stdout_adds ok b c -> stdout_adds ok a c.
Proof.
  intros (d1 & E1 & F1) (d2 & E2 & F2). exists (d1 ++ d2)%list. split.
  - now rewrite E2, E1, app_assoc.
  - apply Forall_app. now split.
Qed.

Lemma stdout_adds_same ok (c c' : Console W) :
  stdout c' = stdout c -> stdout_adds ok c c'.
Proof. intros E. exists []. split; [now rewrite app_nil_r | constructor]. Qed.

Lemma print_adds (ok : string -> Prop) (line : string) :
  ok line -> preserves (stdout_adds ok) (print (W:=W) line).
Proof.
  intros Hok c r c' [= _ <-]. exists [line]. split; [reflexivity|].
  now constructor.
Qed.

Lemma lift_io_quiet {A} ok (m : IO W A) :
  preserves (stdout_adds ok) (lift_io m).
Proof.
  intros c r c' H. apply stdout_adds_same. unfold lift_io in H.
  destruct (m (cenv c)). inversion H; subst. reflexivity.
Qed.

Lemma run_processor_quiet {A} ok (m : M (State W) A) (p : ImageProcessor) :
  preserves (stdout_adds ok) (run_processor m p).
Proof.
  intros c r c' H. apply stdout_adds_same. unfold run_processor in H.
  destruct (m _) as [[a|x] s]; inversion H; subst; reflexivity.
Qed.

Lemma input_quiet ok : preserves (stdout_adds ok) (input (W:=W)).
Proof.
  intros c r c' H. apply stdout_adds_same. unfold input in H.
  destruct (term_input _). inversion H; subst. reflexivity.
Qed.

Lemma abspath_quiet ok p : preserves (stdout_adds ok) (abspath (W:=W) p).
Proof. intros c r c' [= _ <-]. apply stdout_adds_refl. Qed.

(** No line [report] prints is the complaint about the input
    directory. *)
Lemma report_never_complains (cfg : Config) (proc : ImageProcessor) :
  preserves
    (stdout_adds
       (fun line =>
          line <> "Error: Input directory does not exist: " ++ input_dir cfg))
    (report cfg proc).
Proof.
  unfold report.
  repeat first
    [ apply preserves_ret; [apply stdout_adds_refl]
    | apply preserves_bind; [apply stdout_adds_trans | | intros]
    | apply lift_io_quiet | apply run_processor_quiet | apply input_quiet
    | apply abspath_quiet
    | apply print_adds; let H := fresh in intros H; simpl in H; discriminate H
    | match goal with
      | |- preserves _ (if ?b then _ else _) => destruct b
      | |- preserves _ (match ?x with _ => _ end) => destruct x
      end ].
Qed.

(** [main], up to the check of the input directory. *)
Lemma main_eq (new_config : result Config) (c : Console W) :
  main new_config c =
  let out := (stdout c ++ banner)%list in
  match new_config with
  | Raise x => (Raise x, mkConsole (cenv c) out)
  | Ok cfg =>
      match create_directories cfg (cenv c) with
      | (Raise x, e1) => (Raise x, mkConsole e1 out)
      | (Ok _, e1) =>
          let e2 := emit (EvStat (input_dir cfg)) e1 in
          if path_exists (world e1) (input_dir cfg) then
            report cfg (ImageProcessor_init cfg) (mkConsole e2 out)
          else
            (Ok tt,
             mkConsole e2
               (out ++
                ["Error: Input directory does not exist: " ++ input_dir cfg;
                 "Please check the path in config.py"]))
      end
  end.
Proof.
  unfold main, banner. cbv zeta.
  unfold bind at 1. unfold print at 1. cbn [cenv stdout].
  unfold bind at 1. unfold print at 1. cbn [cenv stdout].
  unfold bind at 1. unfold print at 1. cbn [cenv stdout].
  replace (((stdout c ++ [str_repeat "=" 60]) ++ ["Image Resizing System"]) ++
           [str_repeat "=" 60])%list
    with (stdout c ++
          [str_repeat "=" 60; "Image Resizing System"; str_repeat "=" 60])%list
    by (now rewrite <- !app_assoc).
  unfold bind at 1. unfold of_result at 1.
  destruct new_config as [cfg|x]; [|reflexivity].
  unfold bind at 1. unfold lift_io at 1. cbn [cenv stdout].
  destruct (create_directories cfg (cenv c)) as [[[]|x] e1]; [|reflexivity].
  unfold bind at 1. unfold lift_io at 1. cbn [cenv stdout].
  rewrite os_path_exists_eq.
  destruct (path_exists (world e1) (input_dir cfg)); cbn [negb].
  - reflexivity.
  - unfold bind, print, ret. cbn [cenv stdout].
    now rewrite <- app_assoc.
Qed.

(** [main] never prints "Error: Input directory does not exist": it
    creates the input directory before it checks for it, so on a
    platform where [os.makedirs] creates what it is asked for and
    removes nothing the check always passes. *)
Theorem main_never_reports_missing_input
    (cfg : Config) (c : Console W) r c' :
  makedirs_spec P ->
  main (Ok cfg) c = (r, c') ->
  exists added,
    stdout c' = (stdout c ++ added)%list /\
    ~ In ("Error: Input directory does not exist: " ++ input_dir cfg) added.
Proof.
  intros Hspec Hrun. rewrite main_eq in Hrun. cbv zeta in Hrun.
  assert (Hbanner : ~ In ("Error: Input directory does not exist: " ++
                          input_dir cfg) banner).
  { simpl. intros [H|[H|[H|[]]]]; discriminate H. }
  destruct (create_directories cfg (cenv c)) as [[[]|x] e1] eqn:Edirs.
  2:{ inversion Hrun; subst. exists banner. split; [reflexivity|exact Hbanner]. }
  rewrite (input_dir_exists_after_create cfg _ _ Hspec Edirs) in Hrun.
  destruct (report_never_complains cfg _ _ _ _ Hrun) as (d & Hd & Hok).
  simpl in Hd. exists (banner ++ d)%list. split.
  - now rewrite Hd, app_assoc.
  - intros Hin. apply in_app_or in Hin. destruct Hin as [Hin|Hin].
    + exact (Hbanner Hin).
    + rewrite Forall_forall in Hok. exact (Hok _ Hin eq_refl).
Qed.

(** When [Config()] raises, or [create_directories] does, the script
    ends with exit status 1 after the banner and one line that carries
    the text of the exception.  No directory is walked and no file is
    opened: the accesses made, if any, are [os.makedirs] calls. *)
Theorem script_fails_before_any_image :
  (forall (x : exn) (c : Console W),
     script (Raise x) c =
       (1, mkConsole (cenv c)
             (stdout c ++ banner ++
              [String "010" "Unexpected error: " ++ x]))) /\
  (forall (cfg : Config) (x : exn) (c : Console W) (e1 : Env W),
     create_directories cfg (cenv c) = (Raise x, e1) ->
     script (Ok cfg) c =
       (1, mkConsole e1
             (stdout c ++ banner ++
              [String "010" "Unexpected error: " ++ x])) /\
     exists dirs, trace e1 = (trace (cenv c) ++ map EvMakedirs dirs)%list).
Proof.
  split.
  - intros x c. unfold script. rewrite main_eq. cbv zeta.
    unfold print. simpl. now rewrite <- app_assoc.
  - intros cfg x c e1 Hdirs. split.
    + unfold script. rewrite main_eq. cbv zeta. rewrite Hdirs.
      unfold print. simpl. now rewrite <- app_assoc.
    + rewrite create_directories_eq in Hdirs. cbv zeta in Hdirs.
      destruct (plat_makedirs (world (cenv c)) _) as [[[]|y] w1].
      2:{ injection Hdirs as _ <-. exists [input_dir cfg]. reflexivity. }
      destruct (plat_makedirs w1 _) as [[[]|y] w2].
      2:{ injection Hdirs as _ <-. exists [input_dir cfg; output_dir cfg].
          simpl. now rewrite <- app_assoc. }
      destruct (enable_caching cfg); [|discriminate].
      destruct (plat_makedirs w2 _) as [[[]|y] w3]; [discriminate|].
      injection Hdirs as _ <-.
      exists [input_dir cfg; output_dir cfg; cache_dir cfg].
      simpl. now rewrite <- !app_assoc.
Qed.

End Script.

(** ** The in-memory platform obeys the laws *)

Lemma Sim_lookup_store_same (p : string) (v : Sim.node)
    (l : list (string * Sim.node)) :
  Sim.lookup p (Sim.store p v l) = Some v.
Proof.
  induction l as [|[k v0] l IH]; simpl.
  - now rewrite String.eqb_refl.
  - destruct (String.eqb k p) eqn:E; simpl; rewrite E; [reflexivity|exact IH].
Qed.

Lemma Sim_lookup_store_other (p q : string) (v : Sim.node)
    (l : list (string * Sim.node)) :
  q <> p -> Sim.lookup p (Sim.store q v l) = Sim.lookup p l.
Proof.
  intros Hne. induction l as [|[k v0] l IH]; simpl.
  - destruct (String.eqb_spec q p); [contradiction|reflexivity].
  - destruct (String.eqb_spec k q) as [->|Hkq]; simpl.
    + destruct (String.eqb_spec q p); [contradiction|reflexivity].
    + destruct (String.eqb k p); [reflexivity|exact IH].
Qed.

Lemma Sim_stat_of_lookup (w w' : Sim.host) (p : string) :
  Sim.lookup p (Sim.files w') = Sim.lookup p (Sim.files w) ->
  Sim.stat w' p = Sim.stat w p.
Proof. unfold Sim.stat. now intros ->. Qed.

Lemma Sim_makedirs_spec : makedirs_spec Sim.platform.
Proof.
  split.
  - intros w d w'. simpl. unfold Sim.makedirs, path_exists. simpl.
    unfold Sim.stat.
    destruct (Sim.lookup d (Sim.files w)) as [[|m sz im ok]|] eqn:E.
    + intros [= <-]. now rewrite E.
    + discriminate.
    + intros [= <-]. simpl. now rewrite Sim_lookup_store_same.
  - intros w d r w' q. simpl. unfold Sim.makedirs, path_exists. simpl.
    destruct (Sim.lookup d (Sim.files w)) as [[|m sz im ok]|] eqn:E;
      intros [= _ <-]; try (intros H; exact H).
    unfold Sim.stat. simpl.
    destruct (String.eqb_spec d q) as [->|Hne].
    + now rewrite Sim_lookup_store_same.
    + now rewrite (Sim_lookup_store_other q d Sim.Dir _ Hne).
Qed.

Lemma Sim_write_creates : write_creates Sim.platform.
Proof.
  intros w q text w'. simpl. unfold Sim.write, path_exists. simpl.
  intros [= <-]. unfold Sim.stat. simpl.
  now rewrite Sim_lookup_store_same.
Qed.

Lemma Sim_keeps_stat (p : string) : keeps_stat Sim.platform p.
Proof.
  repeat split; simpl.
  - intros w d r w'. unfold Sim.makedirs.
    destruct (Sim.lookup d (Sim.files w)) as [[|m sz im ok]|];
      intros [= _ <-] Hne; try reflexivity.
    apply Sim_stat_of_lookup. simpl. now apply Sim_lookup_store_other.
  - intros w q r w'. unfold Sim.open_w.
    destruct (Sim.lookup q (Sim.files w)) as [[|m sz im ok]|];
      intros [= _ <-] Hne; try reflexivity;
      apply Sim_stat_of_lookup; simpl; now apply Sim_lookup_store_other.
  - intros w q text r w'. unfold Sim.write. intros [= _ <-] Hne.
    apply Sim_stat_of_lookup. simpl. now apply Sim_lookup_store_other.
  - intros w t w'. unfold Sim.time. intros [= _ <-]. reflexivity.
Qed.

Lemma Sim_join_keeps_name : join_keeps_name Sim.platform.
Proof.
  intros root name. simpl. unfold Sim.join.
  assert (Hdefault : ends_with
            (if String.eqb root "" then name else root ++ "/" ++ name) name).
  { destruct (String.eqb root "").
    - now exists "".
    - exists (root ++ "/"). now rewrite append_assoc. }
  destruct name as [|c name']; [exact Hdefault|].
  destruct c as [[] [] [] [] [] [] [] []]; try exact Hdefault.
  now exists "".
Qed.

(** A marker of the cache directory [cache] is never an input under
    [in]. *)
Lemma Sim_marker_is_not_input (name : string) :
  Sim.join "cache" name <> "in/narrow.jpg".
Proof.
  unfold Sim.join. destruct name as [|c name']; [discriminate|].
  destruct c as [[] [] [] [] [] [] [] []]; simpl; discriminate.
Qed.

(** ** The further properties on concrete inputs *)

Lemma validate_image_read_only_witness :
  (exists v,
     fst (validate_image (ImageProcessor_init Demo.cfg) "in/narrow.jpg"
            (env (Demo.start Demo.cfg))) = Ok v) /\
  world (snd (validate_image (ImageProcessor_init Demo.cfg) "in/narrow.jpg"
                (env (Demo.start Demo.cfg)))) =
    world (env (Demo.start Demo.cfg)) /\
  exists t,
    trace (snd (validate_image (ImageProcessor_init Demo.cfg) "in/narrow.jpg"
                  (env (Demo.start Demo.cfg)))) =
      (trace (env (Demo.start Demo.cfg)) ++ t)%list /\
    Forall (fun ev => ev = EvStat "in/narrow.jpg" \/
                      ev = EvImageOpen "in/narrow.jpg" \/
                      ev = EvImageVerify "in/narrow.jpg") t.
Proof.
  apply (validate_image_read_only (ImageProcessor_init Demo.cfg)
           "in/narrow.jpg" (env (Demo.start Demo.cfg))).
  apply surjective_pairing.
Defined.

Lemma validate_image_verdict_witness :
  (true = true <-> "" = "") /\
  (true = true ->
   true = true /\
   exists img,
     pil_open (world (env (Demo.start Demo.cfg))) "in/narrow.jpg" = Ok img /\
     fst (size img) < min_width (config (ImageProcessor_init Demo.cfg))).
Proof.
  apply (validate_image_verdict (ImageProcessor_init Demo.cfg)
           "in/narrow.jpg" (env (Demo.start Demo.cfg)) true "" true
           (snd (validate_image (ImageProcessor_init Demo.cfg)
                   "in/narrow.jpg" (env (Demo.start Demo.cfg))))).
  vm_compute. reflexivity.
Defined.

Lemma process_image_touches_only_its_paths_witness :
  let self := ImageProcessor_init Demo.cfg in
  let e := env (Demo.start Demo.cfg) in
  let o := "out/narrow_processed_with_borders.jpg" in
  let run := process_image self "in/narrow.jpg" o true e in
  (trace (snd run) = (trace e ++ [EvImageOpen "in/narrow.jpg"])%list /\
   world (snd run) = world e /\ fst run = Ok false /\
   ((exists x, pil_open (world e) "in/narrow.jpg" = Raise x) \/
    (exists img x, pil_open (world e) "in/narrow.jpg" = Ok img /\
                   prepared_image self true img e = Raise x)))
  \/
  (exists img out,
     pil_open (world e) "in/narrow.jpg" = Ok img /\
     prepared_image self true img e = Ok out /\
     trace (snd run) =
       (trace e ++ [EvImageOpen "in/narrow.jpg"; EvImageSave o])%list /\
     world (snd run) =
       snd (pil_save_jpeg (world e) out o (quality (config self))) /\
     fst run =
       Ok (match fst (pil_save_jpeg (world e) out o (quality (config self)))
           with Ok _ => true | Raise _ => false end)).
Proof.
  apply (process_image_touches_only_its_paths (ImageProcessor_init Demo.cfg)
           "in/narrow.jpg" "out/narrow_processed_with_borders.jpg" true
           (env (Demo.start Demo.cfg))).
  apply surjective_pairing.
Defined.

(** A file that does not decode: the record carries the text of the
    exception of [Image.open]. *)
Example process_image_logs_the_exception :
  let run := process_image (ImageProcessor_init Demo.cfg) "in/bad.png"
               "out/bad_processed.jpg" false (env (Demo.start Demo.cfg)) in
  fst run = Ok false /\
  log (snd run) =
    [(ERROR,
      "Error processing image in/bad.png: cannot identify image file 'in/bad.png'")].
Proof. vm_compute. split; reflexivity. Qed.

Lemma process_image_wide_ignores_add_borders_witness :
  process_image (ImageProcessor_init Demo.cfg) "in/exact.png"
    "out/exact_processed.jpg" true (env (Demo.start Demo.cfg)) =
  process_image (ImageProcessor_init Demo.cfg) "in/exact.png"
    "out/exact_processed.jpg" false (env (Demo.start Demo.cfg)) /\
  trace (snd (process_image (ImageProcessor_init Demo.cfg) "in/exact.png"
                "out/exact_processed.jpg" true (env (Demo.start Demo.cfg)))) =
    (trace (env (Demo.start Demo.cfg)) ++
     [EvImageOpen "in/exact.png"; EvImageSave "out/exact_processed.jpg"])%list /\
  world (snd (process_image (ImageProcessor_init Demo.cfg) "in/exact.png"
                "out/exact_processed.jpg" true (env (Demo.start Demo.cfg)))) =
    snd (pil_save_jpeg (world (env (Demo.start Demo.cfg)))
           (Demo.white 600 300) "out/exact_processed.jpg"
           (quality (config (ImageProcessor_init Demo.cfg)))).
Proof.
  apply (process_image_wide_ignores_add_borders
           (ImageProcessor_init Demo.cfg) "in/exact.png"
           "out/exact_processed.jpg" (env (Demo.start Demo.cfg))
           (Demo.white 600 300) (Demo.white 600 300));
    first [reflexivity | simpl; lia].
Defined.

Lemma process_image_saves_at_min_width_witness :
  exists out,
    size out = (600, (600 * 400) / 200) /\
    world (snd (process_image (ImageProcessor_init Demo.cfg) "in/narrow.jpg"
                  "out/narrow.jpg" true (env (Demo.start Demo.cfg)))) =
      snd (pil_save_jpeg (world (env (Demo.start Demo.cfg))) out
             "out/narrow.jpg" (quality (config (ImageProcessor_init Demo.cfg)))) /\
    trace (snd (process_image (ImageProcessor_init Demo.cfg) "in/narrow.jpg"
                  "out/narrow.jpg" true (env (Demo.start Demo.cfg)))) =
      (trace (env (Demo.start Demo.cfg)) ++
       [EvImageOpen "in/narrow.jpg"; EvImageSave "out/narrow.jpg"])%list.
Proof.
  apply (process_image_saves_at_min_width Sim_resize_spec
           (ImageProcessor_init Demo.cfg) "in/narrow.jpg" "out/narrow.jpg"
           (env (Demo.start Demo.cfg))
           (Demo.white 200 400) (Demo.white 200 400));
    first [reflexivity | simpl; lia].
Defined.

Lemma add_dark_borders_meets_min_width_witness :
  min_width (config (ImageProcessor_init Demo.cfg)) <=
    fst (size (match _add_dark_borders (ImageProcessor_init Demo.cfg)
                       (Demo.white 200 400)
               with Ok out => out | Raise _ => Demo.white 200 400 end)) /\
  _add_dark_borders (ImageProcessor_init Demo.cfg)
    (match _add_dark_borders (ImageProcessor_init Demo.cfg)
             (Demo.white 200 400)
     with Ok out => out | Raise _ => Demo.white 200 400 end) =
  Ok (match _add_dark_borders (ImageProcessor_init Demo.cfg)
              (Demo.white 200 400)
      with Ok out => out | Raise _ => Demo.white 200 400 end).
Proof.
  apply (add_dark_borders_meets_min_width Sim_resize_spec
           (ImageProcessor_init Demo.cfg) (Demo.white 200 400));
    first [reflexivity | simpl; lia].
Defined.

Lemma add_dark_borders_keeps_aspect_ratio_witness :
  exists out,
    _add_dark_borders (ImageProcessor_init Demo.cfg) (Demo.white 500 333) =
      Ok out /\
    500 < fst (size out) /\
    333 <= snd (size out) /\
    0 <= 600 * 333 - snd (size out) * 500 < 500.
Proof.
  apply (add_dark_borders_keeps_aspect_ratio Sim_resize_spec
           (ImageProcessor_init Demo.cfg) (Demo.white 500 333));
    first [reflexivity | simpl; lia].
Defined.

Lemma mark_then_is_cached_witness :
  let e := env (Demo.start Demo.cfg) in
  let e' := snd (mark_as_cached (ImageProcessor_init Demo.cfg)
                   "in/narrow.jpg" e) in
  fst (is_cached (ImageProcessor_init Demo.cfg) "in/narrow.jpg" e') = Ok true /\
  exists st,
    plat_stat (world e) "in/narrow.jpg" = Ok st /\
    trace e' =
      (trace e ++
       [EvStat "in/narrow.jpg";
        EvMakedirs (cache_dir (config (ImageProcessor_init Demo.cfg)));
        EvOpenWrite (marker_file (config (ImageProcessor_init Demo.cfg))
                       (cache_key_of "in/narrow.jpg" st));
        EvTime;
        EvWrite (marker_file (config (ImageProcessor_init Demo.cfg))
                   (cache_key_of "in/narrow.jpg" st))])%list.
Proof.
  apply (mark_then_is_cached (ImageProcessor_init Demo.cfg) "in/narrow.jpg"
           (env (Demo.start Demo.cfg))
           (snd (mark_as_cached (ImageProcessor_init Demo.cfg)
                   "in/narrow.jpg" (env (Demo.start Demo.cfg))))).
  - exact Sim_write_creates.
  - exact (Sim_keeps_stat "in/narrow.jpg").
  - reflexivity.
  - discriminate.
  - intros st. apply Sim_marker_is_not_input.
  - vm_compute. reflexivity.
Defined.

Lemma reprocessing_is_skipped_witness :
  exists s2,
    process_single_image "in/narrow.jpg" Demo.after_narrow = (Ok true, s2) /\
    processed_count (self_ s2) = processed_count (self_ Demo.after_narrow) /\
    skipped_count (self_ s2) = skipped_count (self_ Demo.after_narrow) + 1 /\
    error_count (self_ s2) = error_count (self_ Demo.after_narrow) /\
    world (env s2) = world (env Demo.after_narrow).
Proof.
  apply (reprocessing_is_skipped "in/narrow.jpg" (Demo.start Demo.cfg)
           Demo.after_narrow).
  - exact Sim_write_creates.
  - exact (Sim_keeps_stat "in/narrow.jpg").
  - reflexivity.
  - discriminate.
  - intros st. apply Sim_marker_is_not_input.
  - vm_compute. reflexivity.
Defined.

Lemma collected_files_pass_extension_check_witness :
  is_valid_image_format Demo.cfg "in/narrow.jpg" = true.
Proof.
  apply (collected_files_pass_extension_check Demo.cfg
           (plat_walk Demo.host "in") "in/narrow.jpg" Sim_join_keeps_name).
  vm_compute. left. reflexivity.
Defined.

Lemma process_single_image_raises_only_from_cache_witness :
  let s := Demo.start Demo.cfg in
  let s' := snd (process_single_image "in/missing.jpg" s) in
  let x := "[Errno 2] No such file or directory: 'in/missing.jpg'" in
  enable_caching (config (self_ s)) = true /\
  self_ s' = self_ s /\
  (is_cached (self_ s) "in/missing.jpg" (env s) = (Raise x, env s') \/
   exists e1 msg needs_borders e2 e3,
     is_cached (self_ s) "in/missing.jpg" (env s) = (Ok false, e1) /\
     validate_image (self_ s) "in/missing.jpg" e1 =
       (Ok (true, msg, needs_borders), e2) /\
     process_image (self_ s) "in/missing.jpg"
       (derive_output_path (self_ s) "in/missing.jpg" needs_borders)
       needs_borders e2 = (Ok true, e3) /\
     mark_as_cached (self_ s) "in/missing.jpg" e3 = (Raise x, env s')).
Proof.
  apply (process_single_image_raises_only_from_cache "in/missing.jpg"
           (Demo.start Demo.cfg)
           "[Errno 2] No such file or directory: 'in/missing.jpg'"
           (snd (process_single_image "in/missing.jpg" (Demo.start Demo.cfg)))).
  vm_compute. reflexivity.
Defined.

Lemma rejected_file_leaves_world_witness :
  let s := Demo.start Demo.cfg_uncached in
  exists s',
    process_single_image "in/bad.png" s = (Ok false, s') /\
    self_ s' = bump_error (self_ s) /\
    world (env s') = world (env s) /\
    log (env s') =
      (log (env s) ++
       [(WARNING,
         ("Invalid image " ++ "in/bad.png" ++ ": " ++
          "Error validating image: cannot identify image file 'in/bad.png'")%string)])%list.
Proof.
  apply (rejected_file_leaves_world "in/bad.png"
           (Demo.start Demo.cfg_uncached)
           (env (Demo.start Demo.cfg_uncached))
           (snd (validate_image (self_ (Demo.start Demo.cfg_uncached))
                   "in/bad.png" (env (Demo.start Demo.cfg_uncached))))
           "Error validating image: cannot identify image file 'in/bad.png'"
           false).
  - reflexivity.
  - vm_compute. reflexivity.
Defined.

(** The directory of [Demo.host] with a dangling link [ghost.jpg]: the
    four images are handled, then the batch ends with the error of
    [os.stat]. *)
Lemma unstatable_file_aborts_batch_witness :
  let P := SimTerminal.with_dangling "ghost.jpg" in
  let s := Demo.start Demo.cfg in
  let w1 := snd (Sim.makedirs Demo.host (output_dir Demo.cfg)) in
  let files :=
    ["in/narrow.jpg"; "in/exact.png"; "in/bad.png"; "in/huge.jpg"] in
  let s_mid :=
    snd (@for_each _ _ _ (@process_single_image _ P) files
           (@loop_start _ P "in" s w1)) in
  @process_directory _ P "in" s =
    (Raise "[Errno 2] No such file or directory: 'in/ghost.jpg'",
     mkState (self_ s_mid) (emit (EvStat "in/ghost.jpg") (env s_mid))).
Proof.
  apply (@unstatable_file_aborts_batch _ (SimTerminal.with_dangling "ghost.jpg")
           "in" (Demo.start Demo.cfg)
           (snd (Sim.makedirs Demo.host (output_dir Demo.cfg)))
           ["in/narrow.jpg"; "in/exact.png"; "in/bad.png"; "in/huge.jpg"]
           "in/ghost.jpg" []).
  - reflexivity.
  - vm_compute. reflexivity.
  - vm_compute. reflexivity.
  - vm_compute. reflexivity.
  - vm_compute. reflexivity.
Defined.

Lemma empty_batch_returns_zero_stats_witness :
  let s := mkState (ImageProcessor_init Demo.cfg)
             (mkEnv SimTerminal.notes_only [] []) in
  exists s',
    process_directory "docs" s = (Ok (mkStats 0 0 0 0), s') /\
    world (env s') =
      snd (Sim.makedirs SimTerminal.notes_only (output_dir Demo.cfg)) /\
    trace (env s') =
      (trace (env s) ++
       [EvMakedirs (output_dir (config (self_ s))); EvWalk "docs"])%list.
Proof.
  apply (empty_batch_returns_zero_stats "docs"
           (mkState (ImageProcessor_init Demo.cfg)
              (mkEnv SimTerminal.notes_only [] []))
           (snd (Sim.makedirs SimTerminal.notes_only (output_dir Demo.cfg)))).
  - vm_compute. reflexivity.
  - vm_compute. reflexivity.
Defined.

Lemma output_dir_failure_stops_batch_witness :
  let s := mkState (mkImageProcessor Demo.cfg 7 8 9)
             (mkEnv SimTerminal.blocked_output [] []) in
  exists s',
    process_directory "in" s =
      (Raise ("[Errno 17] File exists: '" ++ output_dir Demo.cfg ++ "'"), s') /\
    self_ s' = mkImageProcessor (config (self_ s)) 0 0 0 /\
    world (env s') = SimTerminal.blocked_output /\
    trace (env s') =
      (trace (env s) ++ [EvMakedirs (output_dir (config (self_ s)))])%list.
Proof.
  apply (output_dir_failure_stops_batch "in"
           (mkState (mkImageProcessor Demo.cfg 7 8 9)
              (mkEnv SimTerminal.blocked_output [] []))
           ("[Errno 17] File exists: '" ++ output_dir Demo.cfg ++ "'")
           SimTerminal.blocked_output).
  vm_compute. reflexivity.
Defined.

Lemma create_directories_establishes_witness :
  let e := env (Demo.start Demo.cfg) in
  let e' := snd (create_directories Demo.cfg e) in
  path_exists (world e') (input_dir Demo.cfg) = true /\
  path_exists (world e') (output_dir Demo.cfg) = true /\
  (enable_caching Demo.cfg = true ->
   path_exists (world e') (cache_dir Demo.cfg) = true) /\
  log e' = log e.
Proof.
  apply (create_directories_establishes Demo.cfg (env (Demo.start Demo.cfg))
           (snd (create_directories Demo.cfg (env (Demo.start Demo.cfg))))
           Sim_makedirs_spec).
  vm_compute. reflexivity.
Defined.

(** The input directory is a regular file: its [os.makedirs] raises,
    and the output directory is not attempted. *)
Lemma create_directories_in_order_witness :
  create_directories Demo.cfg_uncached (mkEnv SimTerminal.blocked [] []) =
    (Raise ("[Errno 17] File exists: '" ++ input_dir Demo.cfg_uncached ++ "'"),
     mkEnv SimTerminal.blocked []
       ([] ++ [EvMakedirs (input_dir Demo.cfg_uncached)])).
Proof.
  apply (proj1 (create_directories_in_order Demo.cfg_uncached
                  (mkEnv SimTerminal.blocked [] []))).
  vm_compute. reflexivity.
Defined.

Lemma main_never_reports_missing_input_witness :
  exists added,
    stdout (snd (main (Ok Demo.cfg) (SimTerminal.console Demo.host))) =
      (stdout (SimTerminal.console Demo.host) ++ added)%list /\
    ~ In ("Error: Input directory does not exist: " ++ input_dir Demo.cfg)
         added.
Proof.
  apply (main_never_reports_missing_input Demo.cfg
           (SimTerminal.console Demo.host)
           (fst (main (Ok Demo.cfg) (SimTerminal.console Demo.host)))
           (snd (main (Ok Demo.cfg) (SimTerminal.console Demo.host)))
           Sim_makedirs_spec).
  apply surjective_pairing.
Defined.

(** The directory of [Demo.host] with a dangling link [ghost.jpg]
    listed last: four files are counted, the fifth call raises, and no
    statistics come back. *)
Lemma aborted_batch_counts_fall_short_witness :
  let P := SimTerminal.with_dangling "ghost.jpg" in
  let s := Demo.start Demo.cfg in
  let w1 := snd (Sim.makedirs Demo.host (output_dir Demo.cfg)) in
  let files :=
    ["in/narrow.jpg"; "in/exact.png"; "in/bad.png"; "in/huge.jpg"] in
  let s_mid :=
    snd (@for_each _ _ _ (@process_single_image _ P) files
           (@loop_start _ P "in" s w1)) in
  let x := "[Errno 2] No such file or directory: 'in/ghost.jpg'" in
  exists s',
    @process_single_image _ P "in/ghost.jpg" s_mid = (Raise x, s') /\
    self_ s' = self_ s_mid /\
    ~ one_counter_incremented (self_ s_mid) (self_ s') /\
    @process_directory _ P "in" s = (Raise x, s') /\
    counted (self_ s') = Z.of_nat (List.length files) /\
    counted (self_ s') <
      Z.of_nat (List.length
                  (@collect_image_files _ P (config (self_ s))
                     (@plat_walk _ P w1 "in"))).
Proof.
  apply (@aborted_batch_counts_fall_short _
           (SimTerminal.with_dangling "ghost.jpg")
           "in" (Demo.start Demo.cfg)
           (snd (Sim.makedirs Demo.host (output_dir Demo.cfg)))
           ["in/narrow.jpg"; "in/exact.png"; "in/bad.png"; "in/huge.jpg"]
           "in/ghost.jpg" []).
  - reflexivity.
  - vm_compute. reflexivity.
  - vm_compute. reflexivity.
  - vm_compute. reflexivity.
  - vm_compute. reflexivity.
Defined.

(** The same directory, the dangling link listed first.  With caching
    enabled the batch raises at once; with caching disabled it returns
    and the link is one of three errors among five files. *)
Lemma unstatable_file_is_not_isolated_witness :
  let P := SimTerminal.with_dangling_first "ghost.jpg" in
  let w1 := snd (Sim.makedirs Demo.host (output_dir Demo.cfg)) in
  @process_directory _ P "in" (Demo.start Demo.cfg) =
    (Raise "[Errno 2] No such file or directory: 'in/ghost.jpg'",
     mkState (mkImageProcessor (config (self_ (Demo.start Demo.cfg))) 0 0 0)
       (emit (EvStat "in/ghost.jpg")
          (env (@loop_start _ P "in" (Demo.start Demo.cfg) w1))))
  /\
  exists stats s',
    @process_directory _ P "in" (Demo.start Demo.cfg_uncached) =
      (Ok stats, s') /\
    1 <= errors stats /\
    total stats =
      Z.of_nat (List.length
                  ["in/ghost.jpg"; "in/narrow.jpg"; "in/exact.png";
                   "in/bad.png"; "in/huge.jpg"]) /\
    total stats = processed stats + skipped stats + errors stats.
Proof.
  split.
  - apply (proj1 (@unstatable_file_is_not_isolated _
                    (SimTerminal.with_dangling_first "ghost.jpg")
                    "in" (Demo.start Demo.cfg)
                    (snd (Sim.makedirs Demo.host (output_dir Demo.cfg)))
                    "in/ghost.jpg"
                    ["in/narrow.jpg"; "in/exact.png"; "in/bad.png";
                     "in/huge.jpg"]
                    "[Errno 2] No such file or directory: 'in/ghost.jpg'"
                    ltac:(vm_compute; reflexivity)
                    ltac:(vm_compute; reflexivity)
                    ltac:(vm_compute; reflexivity)));
      reflexivity.
  - apply (proj2 (@unstatable_file_is_not_isolated _
                    (SimTerminal.with_dangling_first "ghost.jpg")
                    "in" (Demo.start Demo.cfg_uncached)
                    (snd (Sim.makedirs Demo.host (output_dir Demo.cfg)))
                    "in/ghost.jpg"
                    ["in/narrow.jpg"; "in/exact.png"; "in/bad.png";
                     "in/huge.jpg"]
                    "[Errno 2] No such file or directory: 'in/ghost.jpg'"
                    ltac:(vm_compute; reflexivity)
                    ltac:(vm_compute; reflexivity)
                    ltac:(vm_compute; reflexivity)));
      reflexivity.
Defined.

(** The two runs, evaluated: no file is opened before the batch with
    caching enabled raises; with caching disabled the statistics are
    2 processed, 0 skipped, 3 errors, 5 in total. *)
Example dangling_link_first_evaluated :
  let P := SimTerminal.with_dangling_first "ghost.jpg" in
  (fst (@process_directory _ P "in" (Demo.start Demo.cfg)) =
     Raise "[Errno 2] No such file or directory: 'in/ghost.jpg'" /\
   self_ (snd (@process_directory _ P "in" (Demo.start Demo.cfg))) =
     mkImageProcessor Demo.cfg 0 0 0 /\
   trace (env (snd (@process_directory _ P "in" (Demo.start Demo.cfg)))) =
     [EvMakedirs (output_dir Demo.cfg); EvWalk "in"; EvStat "in/ghost.jpg"]) /\
  fst (@process_directory _ P "in" (Demo.start Demo.cfg_uncached)) =
    Ok (mkStats 2 0 3 5).
Proof. vm_compute. repeat split. Qed.
